(** * Rockefeller-finance backend: ledger operations and Bitcoin price lookup

    A shallow embedding of the Express route handlers of [server.js] that
    mutate a user's budget document, and of the [/api/bitcoin-price]
    handler, followed by the properties proved about them.

    The repository keeps several versions of the server.  The budget,
    expense and allocation handlers read the same in all of them.  The
    investment and price handlers are embedded from the version with
    logging and three price sources (in part_000), which degrades to a
    fallback price; the earlier handlers of [server.js] are embedded next
    to them under the suffix [_serverjs].

    Conventions of the embedding.
    - A JavaScript [Number] held in the budget document is an exact
      rational ([Qc], canonical rationals with Leibniz equality), and
      [0.15] is the rational 3/20.  What is proved on these numbers about
      signs, guards, lists and the fields a handler touches reads the same
      on the machine's numbers; an equation between sums (as in the
      conservation along a run) is one of exact arithmetic, which the sums
      of the server follow within rounding.  Where a property is about the
      rounding itself, the handlers are embedded a second time on binary64
      ([Binary64]).
    - A handler is a function from the loaded document and the request to an
      [Outcome]: either the document handed to [user.save()], or the status
      and code of the response sent instead.  A handler that answers without
      calling [user.save()] leaves the stored document as it was ([commit]).
    - Authentication, the MongoDB round trip and logging are not modelled;
      the document is the one [User.findById] returned. *)

From Stdlib Require Import QArith Qcanon ZArith List Ascii String.
From Corelib Require PrimFloat.
From stdpp Require Import base decidable option list strings numbers.

Local Open Scope Qc_scope.

(** ** JavaScript values used by the handlers *)

(** [amount > limit] on two numbers. *)
Definition js_gt (x y : Qc) : bool := bool_decide (y < x).

(** express-validator's [isFloat({ min: 0 })] on a numeric field. *)
Definition isFloat_min0 (x : Qc) : bool := bool_decide (0 ≤ x).

(** express-validator's [isString().notEmpty()]. *)
Definition notEmpty (s : string) : bool := negb (String.eqb s EmptyString).

(** The result of [parseInt(req.params.index)]: an integer, or [NaN] when the
    path segment does not start with digits. *)
Inductive ParsedInt :=
| Int (z : Z)
| NaNInt.

(** A number computed along the way: finite, or [NaN]. *)
Inductive JsNumber :=
| Num (q : Qc)
| NaN.

(** [sum + x], where [x] is a number or [undefined] ([None]): anything added
    to [undefined] or to [NaN] is [NaN]. *)
Definition jsPlus (sum : JsNumber) (x : option Qc) : JsNumber :=
  match sum, x with
  | Num s, Some v => Num (s + v)
  | _, _ => NaN
  end.

(** ** The user document (userSchema) *)

Module Expense.
Record t := mk {
  amount : Qc;
  category : string;
  date : string;
  purpose : string;
  location : string
}.
End Expense.

(** The object literal [newInvestment] that [POST /api/investments] builds. *)
Module Investment.
Record t := mk {
  amount : Qc;
  date : string;
  price : Qc;
  type : string
}.
End Investment.

Record Allocations := mkAllocations {
  essentials : Qc;
  savings : Qc;
  selfInvestment : Qc;
  charity : Qc;
  emergency : Qc
}.

(** The schema declares [investmentHistory] as
    [[{ amount: Number, date: String, price: Number, type: String }]].  An
    object with a [type] key is a type declaration for Mongoose, so this is
    an array of [String] (the three other keys are options it does not
    know), in all versions of the server: the elements on file are
    strings. *)
Record User := mkUser {
  initialBudget : Qc;
  expenses : list Expense.t;
  allocations : Allocations;
  investmentHistory : list string
}.

(** What [user.investmentHistory.push] is given, and what Mongoose's cast to
    the element type [String] makes of it: a string is kept; a plain object
    has no [toString] but [Object.prototype.toString], and the cast throws a
    [CastError] ([None]). *)
Inductive Pushed :=
| PushedString (text : string)
| PushedObject (newInvestment : Investment.t).

Definition castString (value : Pushed) : option string :=
  match value with
  | PushedString text => Some text
  | PushedObject _ => None
  end.

(** [inv.amount] on an element of [investmentHistory]: a string has no such
    property, the read gives [undefined]. *)
Definition amountOf (inv : string) : option Qc := None.

(** The document [new User({ username, password })] creates at registration:
    every default of the schema. *)
Definition newUser : User :=
  mkUser 0 [] (mkAllocations 0 0 0 0 0) [].

(** The five property names of [allocations]. *)
Inductive AllocationKey :=
| KEssentials
| KSavings
| KSelfInvestment
| KCharity
| KEmergency.

#[global] Instance AllocationKey_eq_dec : EqDecision AllocationKey.
Proof. solve_decision. Defined.

(** [user.allocations[key]] *)
Definition getAllocation (a : Allocations) (k : AllocationKey) : Qc :=
  match k with
  | KEssentials => essentials a
  | KSavings => savings a
  | KSelfInvestment => selfInvestment a
  | KCharity => charity a
  | KEmergency => emergency a
  end.

(** [user.allocations[key] = v] *)
Definition setAllocation (a : Allocations) (k : AllocationKey) (v : Qc) : Allocations :=
  match k with
  | KEssentials => mkAllocations v (savings a) (selfInvestment a) (charity a) (emergency a)
  | KSavings => mkAllocations (essentials a) v (selfInvestment a) (charity a) (emergency a)
  | KSelfInvestment => mkAllocations (essentials a) (savings a) v (charity a) (emergency a)
  | KCharity => mkAllocations (essentials a) (savings a) (selfInvestment a) v (emergency a)
  | KEmergency => mkAllocations (essentials a) (savings a) (selfInvestment a) (charity a) v
  end.

(** [Object.values(user.allocations)], in schema order. *)
Definition allocationValues (a : Allocations) : list Qc :=
  [essentials a; savings a; selfInvestment a; charity a; emergency a].

(** [xs.reduce((sum, val) => sum + val, 0)] *)
Definition reduceSum (xs : list Qc) : Qc := fold_left Qcplus xs 0.

Definition sumAllocations (a : Allocations) : Qc := reduceSum (allocationValues a).

(** [user.investmentHistory.reduce((sum, inv) => sum + inv.amount, 0)] *)
Definition sumInvestments (l : list string) : JsNumber :=
  fold_left (fun sum inv => jsPlus sum (amountOf inv)) l (Num 0).


Definition allocationsNonNegative (a : Allocations) : Prop :=
  ∀ k, 0 ≤ getAllocation a k.

(** ** Resolving a category label

    Both expense handlers index an object literal with the label:
    [{ 'Tiêu dùng thiết yếu': 'essentials', ... }[category]].  A property
    read on an object literal also finds what the literal inherits from
    [Object.prototype], so the read has three possible results: one of the
    five keys, an inherited member (a function or object, hence truthy), or
    [undefined]. *)

Inductive Lookup :=
| Own (k : AllocationKey)
| Inherited
| Undefined.

#[global] Instance Lookup_eq_dec : EqDecision Lookup.
Proof. solve_decision. Defined.

Definition objectPrototypeMembers : list string :=
  ["constructor"; "__defineGetter__"; "__defineSetter__"; "hasOwnProperty";
   "__lookupGetter__"; "__lookupSetter__"; "isPrototypeOf";
   "propertyIsEnumerable"; "toString"; "valueOf"; "__proto__";
   "toLocaleString"]%string.

Definition isInherited (label : string) : bool :=
  existsb (String.eqb label) objectPrototypeMembers.

Definition categoryKey (category : string) : Lookup :=
  if String.eqb category "Tiêu dùng thiết yếu" then Own KEssentials
  else if String.eqb category "Tiết kiệm bắt buộc" then Own KSavings
  else if String.eqb category "Đầu tư bản thân" then Own KSelfInvestment
  else if String.eqb category "Từ thiện" then Own KCharity
  else if String.eqb category "Dự phòng linh hoạt" then Own KEmergency
  else if isInherited category then Inherited
  else Undefined.

(** ** Responses *)

(** The [code] field of a refusal (the handlers of the logging variant send
    it next to the message; [server.js] sends the message alone). *)
Inductive Code :=
| VALIDATION_ERROR
| INVALID_CATEGORY
| INSUFFICIENT_ALLOCATION
| INVALID_INDEX
| INSUFFICIENT_BUDGET
| PORTFOLIO_RISK
| SERVER_ERROR.

Inductive Outcome :=
| Saved (user : User)
| Refused (status : nat) (code : Code).

(** The stored document after the request: only [user.save()] writes it. *)
Definition commit (stored : User) (o : Outcome) : User :=
  match o with
  | Saved user => user
  | Refused _ _ => stored
  end.

Definition accepted (o : Outcome) : bool :=
  match o with
  | Saved _ => true
  | Refused _ _ => false
  end.

(** ** Request bodies *)

Module ExpenseBody.
Record t := mk {
  amount : Qc;
  category : string;
  purpose : string;
  location : string;
  date : option string
}.
End ExpenseBody.

Module InvestmentBody.
Record t := mk {
  amount : Qc;
  price : Qc;
  type : string
}.
End InvestmentBody.

(** ** Budget and expense handlers (server.js; the same text in every variant) *)

(** [POST /api/initial-budget] (server.js:140-163).  The validator is
    [body('initialBudget').isFloat({ min: 0 })]. *)
Definition post_initial_budget (user : User) (newBudget : Qc) : Outcome :=
  if negb (isFloat_min0 newBudget) then Refused 400 VALIDATION_ERROR
  else
    let a := allocations user in
    Saved (mkUser
      (initialBudget user + newBudget)
      (expenses user)
      (mkAllocations
         (essentials a + newBudget * Q2Qc 0.5)
         (savings a + newBudget * Q2Qc 0.2)
         (selfInvestment a + newBudget * Q2Qc 0.15)
         (charity a + newBudget * Q2Qc 0.05)
         (emergency a + newBudget * Q2Qc 0.1))
      (investmentHistory user)).

(** [date || new Date().toLocaleDateString('vi-VN')]: an absent or empty
    date takes today's. *)
Definition dateOrToday (today : string) (date : option string) : string :=
  match date with
  | Some d => if notEmpty d then d else today
  | None => today
  end.

(** [amount > user.allocations[categoryKey]].  With an inherited member as
    the key the read gives [undefined], and no number is greater than
    [undefined]. *)
Definition exceedsAllocation (amount : Qc) (a : Allocations) (key : Lookup) : bool :=
  match key with
  | Own k => js_gt amount (getAllocation a k)
  | Inherited | Undefined => false
  end.

(** [user.allocations[categoryKey] += delta].  When the key is not one of
    the five, the assignment creates a property the schema does not have,
    and the five balances stay as they are. *)
Definition adjustAllocation (a : Allocations) (key : Lookup) (delta : Qc) : Allocations :=
  match key with
  | Own k => setAllocation a k (getAllocation a k + delta)
  | Inherited | Undefined => a
  end.

(** [POST /api/expenses] (server.js:185-227). *)
Definition post_expenses (today : string) (user : User) (body : ExpenseBody.t) : Outcome :=
  let amount := ExpenseBody.amount body in
  let category := ExpenseBody.category body in
  if negb (isFloat_min0 amount && notEmpty category
           && notEmpty (ExpenseBody.purpose body)
           && notEmpty (ExpenseBody.location body))
  then Refused 400 VALIDATION_ERROR
  else
    match categoryKey category with
    | Undefined => Refused 400 INVALID_CATEGORY
    | key =>
      if exceedsAllocation amount (allocations user) key
      then Refused 400 INSUFFICIENT_ALLOCATION
      else
        let newExpense :=
          Expense.mk amount category
            (dateOrToday today (ExpenseBody.date body))
            (ExpenseBody.purpose body) (ExpenseBody.location body) in
        Saved (mkUser
          (initialBudget user - amount)
          (expenses user ++ [newExpense])
          (adjustAllocation (allocations user) key (- amount))
          (investmentHistory user))
    end.

(** [index < 0 || index >= length]; both comparisons are false on [NaN]. *)
Definition indexOutOfRange (index : ParsedInt) (length : nat) : bool :=
  match index with
  | Int z => (z <? 0)%Z || (Z.of_nat length <=? z)%Z
  | NaNInt => false
  end.

(** [xs[index]] *)
Definition elementAt {A} (xs : list A) (index : ParsedInt) : option A :=
  match index with
  | Int z => if (z <? 0)%Z then None else xs !! Z.to_nat z
  | NaNInt => None
  end.

(** [xs.splice(index, 1)] at an index inside the array. *)
Definition splice1 {A} (xs : list A) (index : ParsedInt) : list A :=
  match index with
  | Int z => if (z <? 0)%Z then xs else delete (Z.to_nat z) xs
  | NaNInt => xs
  end.

(** [DELETE /api/expenses/:index] (server.js:229-253).  When the guard lets
    an index through and [user.expenses[index]] is [undefined], reading
    [deletedExpense.category] throws, and the [catch] answers 500. *)
Definition delete_expenses (user : User) (index : ParsedInt) : Outcome :=
  if indexOutOfRange index (length (expenses user))
  then Refused 400 INVALID_INDEX
  else
    match elementAt (expenses user) index with
    | None => Refused 500 SERVER_ERROR
    | Some deletedExpense =>
      let key := categoryKey (Expense.category deletedExpense) in
      Saved (mkUser
        (initialBudget user + Expense.amount deletedExpense)
        (splice1 (expenses user) index)
        (adjustAllocation (allocations user) key (Expense.amount deletedExpense))
        (investmentHistory user))
    end.

(** [POST /api/allocations] (server.js:265-284): five validators
    [isFloat({ min: 0 })], then [user.allocations = req.body]. *)
Definition post_allocations (user : User) (body : Allocations) : Outcome :=
  if negb (isFloat_min0 (essentials body) && isFloat_min0 (savings body)
           && isFloat_min0 (selfInvestment body) && isFloat_min0 (charity body)
           && isFloat_min0 (emergency body))
  then Refused 400 VALIDATION_ERROR
  else Saved (mkUser (initialBudget user) (expenses user) body (investmentHistory user)).

(** ** Investment handlers

    The version with logging and the three price sources (the second of the
    server files kept in part_000) means to book an investment against
    [allocations.selfInvestment]; [server.js] means to keep the list only.
    In both, a request that passes the guards reaches
    [user.investmentHistory.push(newInvestment)], where the cast of the
    object to the element type throws; the [catch] answers 500 and nothing
    is saved. *)

Definition validInvestmentBody (body : InvestmentBody.t) : bool :=
  isFloat_min0 (InvestmentBody.amount body)
  && isFloat_min0 (InvestmentBody.price body)
  && notEmpty (InvestmentBody.type body).

(** [totalPortfolio > 0 && amount / totalPortfolio > 0.1]; no comparison
    with [NaN] holds. *)
Definition portfolioRisk (amount : Qc) (totalPortfolio : JsNumber) : bool :=
  match totalPortfolio with
  | Num total => js_gt total 0 && js_gt (amount / total) (Q2Qc 0.1)
  | NaN => false
  end.

(** [POST /api/investments] (part_000:956-1004). *)
Definition post_investments (today : string) (user : User) (body : InvestmentBody.t) : Outcome :=
  if negb (validInvestmentBody body) then Refused 400 VALIDATION_ERROR
  else
    let a := allocations user in
    let investmentBudget := selfInvestment a + emergency a in
    let totalPortfolio :=
      match sumInvestments (investmentHistory user) with
      | Num invested => Num (sumAllocations a + invested)
      | NaN => NaN
      end in
    let amount := InvestmentBody.amount body in
    if js_gt amount investmentBudget then Refused 400 INSUFFICIENT_BUDGET
    else if portfolioRisk amount totalPortfolio then Refused 400 PORTFOLIO_RISK
    else
      let newInvestment :=
        Investment.mk amount today (InvestmentBody.price body) (InvestmentBody.type body) in
      match castString (PushedObject newInvestment) with
      | None => Refused 500 SERVER_ERROR
      | Some text =>
        Saved (mkUser
          (initialBudget user)
          (expenses user)
          (setAllocation a KSelfInvestment (selfInvestment a - amount))
          (investmentHistory user ++ [text]))
      end.

(** [DELETE /api/investments/:index] (part_000:1006-1024).  When the guard
    lets an index through and [user.investmentHistory[index]] is
    [undefined], reading [deletedInvestment.amount] throws.  On an element
    that is there, [deletedInvestment.amount] is [undefined] and the sum is
    [NaN], which the cast of the [Number] path refuses: [user.save()]
    rejects.  Either way the [catch] answers 500. *)
Definition delete_investments (user : User) (index : ParsedInt) : Outcome :=
  if indexOutOfRange index (length (investmentHistory user))
  then Refused 400 INVALID_INDEX
  else
    match elementAt (investmentHistory user) index with
    | None => Refused 500 SERVER_ERROR
    | Some deletedInvestment =>
      let a := allocations user in
      match jsPlus (Num (selfInvestment a)) (amountOf deletedInvestment) with
      | Num credited =>
        Saved (mkUser
          (initialBudget user)
          (expenses user)
          (setAllocation a KSelfInvestment credited)
          (splice1 (investmentHistory user) index))
      | NaN => Refused 500 SERVER_ERROR
      end
    end.

(** The handlers of [server.js] itself: the same guards (the portfolio total
    without the investments), and no line that touches the allocations. *)

(** [POST /api/investments] (server.js:326-360). *)
Definition post_investments_serverjs (today : string) (user : User) (body : InvestmentBody.t) : Outcome :=
  if negb (validInvestmentBody body) then Refused 400 VALIDATION_ERROR
  else
    let a := allocations user in
    let investmentBudget := selfInvestment a + emergency a in
    let totalPortfolio := Num (sumAllocations a) in
    let amount := InvestmentBody.amount body in
    if js_gt amount investmentBudget then Refused 400 INSUFFICIENT_BUDGET
    else if portfolioRisk amount totalPortfolio then Refused 400 PORTFOLIO_RISK
    else
      let newInvestment :=
        Investment.mk amount today (InvestmentBody.price body) (InvestmentBody.type body) in
      match castString (PushedObject newInvestment) with
      | None => Refused 500 SERVER_ERROR
      | Some text =>
        Saved (mkUser (initialBudget user) (expenses user) a
                      (investmentHistory user ++ [text]))
      end.

(** [DELETE /api/investments/:index] (server.js:362-376).  [splice] at [NaN]
    removes the first element. *)
Definition delete_investments_serverjs (user : User) (index : ParsedInt) : Outcome :=
  if indexOutOfRange index (length (investmentHistory user))
  then Refused 400 INVALID_INDEX
  else
    Saved (mkUser (initialBudget user) (expenses user) (allocations user)
             (match index with
              | Int _ => splice1 (investmentHistory user) index
              | NaNInt => delete 0%nat (investmentHistory user)
              end)).

(** ** Sequences of requests against one document *)

Inductive Op :=
| InjectBudget (newBudget : Qc)
| RecordExpense (body : ExpenseBody.t)
| DeleteExpense (index : ParsedInt)
| RecordInvestment (body : InvestmentBody.t)
| DeleteInvestment (index : ParsedInt).

Definition handle (today : string) (user : User) (op : Op) : Outcome :=
  match op with
  | InjectBudget newBudget => post_initial_budget user newBudget
  | RecordExpense body => post_expenses today user body
  | DeleteExpense index => delete_expenses user index
  | RecordInvestment body => post_investments today user body
  | DeleteInvestment index => delete_investments user index
  end.

(** One request after the other, each loading what the previous one stored. *)
Definition step (today : string) (user : User) (op : Op) : User :=
  commit user (handle today user op).

Definition run (today : string) (ops : list Op) (user : User) : User :=
  fold_left (step today) ops user.

(** What an operation added to the budget: the amount of an accepted
    injection, nothing otherwise. *)
Definition injection (today : string) (user : User) (op : Op) : Qc :=
  match op with
  | InjectBudget newBudget =>
    if accepted (handle today user op) then newBudget else 0
  | _ => 0
  end.





(** Every amount on file is non-negative (what the validator of
    [POST /api/expenses] lets in). *)
Definition amountsNonNegative (user : User) : Prop :=
  Forall (fun e => 0 ≤ Expense.amount e) (expenses user).

Definition isRecordInvestment (op : Op) : bool :=
  match op with
  | RecordInvestment _ => true
  | _ => false
  end.

(** ** Bitcoin price lookup (part_000:646-660 and 1026-1105) *)

Inductive Source :=
| CoinGecko
| CoinMarketCap
| Binance.

(** What [axios.get] rejects with: [error.response?.status] is a status, or
    there was no response at all (timeout, network). *)
Inductive AxiosError :=
| HttpStatus (status : nat)
| NoResponse.

(** The body of an upstream answer, as far as the handler reads it, by what
    its property path ([data.bitcoin.usd], [cmcData.data.BTC.quote.USD.price],
    [binanceData.price]) ends in: the quoted price; nothing, the last
    property being absent ([undefined]); or the path throws before its end,
    an object on the way being absent.  A body whose path ends in a value of
    another kind is not represented. *)
Inductive Payload :=
| Quote (price : Qc)
| NoPrice
| Malformed.

Inductive AxiosResult :=
| Resolved (data : Payload)
| Rejected (error : AxiosError).

Inductive RedisReply :=
| Reply (value : option string)
| RedisFailure.

Record RedisClient := mkRedisClient {
  get : string → RedisReply
}.

(** What the handler finds when it runs: the Redis handle ([null] after a
    failed connection), [process.env.CMC_API_KEY], and the answer of each
    source to the i-th [axios.get] of this request. *)
Record Environment := mkEnvironment {
  redisClient : option RedisClient;
  CMC_API_KEY : option string;
  axiosGet : Source → nat → AxiosResult
}.

(** Calls that leave the process, in order.  [Wait ms] is the back-off
    before a retry, [ms] plus a jitter below 100.  [RedisSetEx] carries the
    number whose text ([price.toString()]) is written. *)
Inductive Event :=
| AxiosGet (source : Source)
| Wait (ms : nat)
| RedisSetEx (key : string) (ttl : nat) (value : JsNumber).

Inductive Fetched :=
| Returned (data : Payload)
| Threw (error : AxiosError)
| ReturnedUndefined.

Definition is429 (error : AxiosError) : bool :=
  match error with
  | HttpStatus status => (status =? 429)%nat
  | NoResponse => false
  end.

(** The loop of [fetchWithRetry] from iteration [i], with [remaining]
    iterations left ([remaining = retries - i]). *)
Fixpoint fetchLoop (source : Source) (answer : nat → AxiosResult)
    (retries backoff i remaining : nat) : Fetched * list Event :=
  match remaining with
  | O => (ReturnedUndefined, [])
  | S remaining' =>
    match answer i with
    | Resolved data => (Returned data, [AxiosGet source])
    | Rejected error =>
      if (i =? retries - 1)%nat then (Threw error, [AxiosGet source])
      else
        let '(result, events) := fetchLoop source answer retries backoff (S i) remaining' in
        (result,
         AxiosGet source
           :: (if is429 error then [Wait (backoff * (i + 1))] else []) ++ events)
    end
  end.

(** [fetchWithRetry(url, options = {}, retries = 3, backoff = 1000)] *)
Definition fetchWithRetry (source : Source) (answer : nat → AxiosResult)
    (retries backoff : nat) : Fetched * list Event :=
  fetchLoop source answer retries backoff 0 retries.

Record PriceResponse := mkPriceResponse {
  status : nat;
  price : option JsNumber;
  warning : option string;
  error : option string
}.

Definition fallbackPrice : Qc := Q2Qc 117783.89.

Definition fallbackWarning : string := "Không thể lấy giá Bitcoin từ API".

(** The cache read at the head of the handler: the cached text when the
    client exists, [get] resolves and the text is truthy. *)
Definition cachedPrice (env : Environment) : option string :=
  match redisClient env with
  | Some client =>
    match get client "bitcoin_price" with
    | Reply (Some text) => if notEmpty text then Some text else None
    | Reply None => None
    | RedisFailure => None
    end
  | None => None
  end.

(** [if (redisClient) { try { await redisClient.setEx('bitcoin_price', 300,
    price.toString()) } catch ... }] *)
Definition writeThrough (env : Environment) (price : JsNumber) : list Event :=
  match redisClient env with
  | Some _ => [RedisSetEx "bitcoin_price" 300 price]
  | None => []
  end.

(** How one [try] block of the chain ends: with [return res.json({ price })]
    ([price] absent when it is [undefined]), or in its [catch]. *)
Inductive Tried :=
| Answered (price : option JsNumber)
| Failed.

(** One [try] block of the chain: fetch, read the price, cache it, answer.
    The block has no test on the price it read.  When the path ends in
    [undefined], CoinGecko's and CoinMarketCap's blocks throw at
    [price.toString()] inside the [try] around [setEx] (nothing is written)
    and answer without a price; Binance's block has [parseFloat(undefined)],
    which is [NaN], writes it and answers it. *)
Definition trySource (env : Environment) (source : Source) : Tried * list Event :=
  let '(result, events) := fetchWithRetry source (axiosGet env source) 3 1000 in
  match result with
  | Returned (Quote price) =>
    (Answered (Some (Num price)), events ++ writeThrough env (Num price))
  | Returned NoPrice =>
    match source with
    | Binance => (Answered (Some NaN), events ++ writeThrough env NaN)
    | CoinGecko | CoinMarketCap => (Answered None, events)
    end
  | Returned Malformed | Threw _ | ReturnedUndefined => (Failed, events)
  end.

Definition truthy (s : option string) : bool :=
  match s with
  | Some text => notEmpty text
  | None => false
  end.

Section PriceHandler.

(** JavaScript's [parseFloat], applied to the cached text. *)
Variable parseFloat : string → JsNumber.

(** [GET /api/bitcoin-price] (part_000:1026-1105). *)
Definition get_bitcoin_price (env : Environment) : PriceResponse * list Event :=
  match cachedPrice env with
  | Some text => (mkPriceResponse 200 (Some (parseFloat text)) None None, [])
  | None =>
    match trySource env CoinGecko with
    | (Answered price, events) => (mkPriceResponse 200 price None None, events)
    | (Failed, events1) =>
      let '(second, events2) :=
        if truthy (CMC_API_KEY env) then trySource env CoinMarketCap else (Failed, []) in
      match second with
      | Answered price =>
        (mkPriceResponse 200 price None None, events1 ++ events2)
      | Failed =>
        match trySource env Binance with
        | (Answered price, events3) =>
          (mkPriceResponse 200 price None None, events1 ++ events2 ++ events3)
        | (Failed, events3) =>
          (mkPriceResponse 200 (Some (Num fallbackPrice)) (Some fallbackWarning) None,
           events1 ++ events2 ++ events3)
        end
      end
    end
  end.

End PriceHandler.

(** [GET /api/bitcoin-price] of [server.js] itself (lines 378-388): one
    request to CoinGecko, no cache and no fallback. *)
Definition get_bitcoin_price_serverjs (env : Environment) : PriceResponse * list Event :=
  match axiosGet env CoinGecko 0 with
  | Resolved (Quote price) =>
    (mkPriceResponse 200 (Some (Num price)) None None, [AxiosGet CoinGecko])
  | Resolved NoPrice =>
    (mkPriceResponse 200 None None None, [AxiosGet CoinGecko])
  | Resolved Malformed | Rejected _ =>
    (mkPriceResponse 500 None None (Some "Lỗi lấy giá Bitcoin"), [AxiosGet CoinGecko])
  end.

(** The upstream calls among the events. *)
Definition upstreamCalls (events : list Event) : list Source :=
  omap (fun e => match e with AxiosGet s => Some s | _ => None end) events.

(** An attempt fails when the request is rejected (no answer, or a status
    outside 2xx) or the body cannot be read ([Malformed]): what takes the
    handler to the [catch] of the source. *)
Definition attemptFails (r : AxiosResult) : bool :=
  match r with
  | Resolved (Quote _) | Resolved NoPrice => false
  | Resolved Malformed | Rejected _ => true
  end.

(** Every attempt a request can make at a source fails. *)
Definition sourceDown (env : Environment) (source : Source) : Prop :=
  ∀ i, attemptFails (axiosGet env source i) = true.

(** *** A reader of decimal numerals

    An instance of [parseFloat] to run the handler on examples: it reads
    digits, an optional point and more digits, and gives [NaN] when the text
    starts with neither a digit nor a point followed by one.  On such texts
    it is what [parseFloat] returns. *)

Definition digitValue (c : ascii) : option Z :=
  let n := nat_of_ascii c in
  if (48 <=? n)%nat && (n <=? 57)%nat then Some (Z.of_nat (n - 48)) else None.

(** Reads a run of digits: the value read onto [acc], the number of digits
    and the rest of the text. *)
Fixpoint readDigits (s : string) (acc : Z) (count : nat) : Z * nat * string :=
  match s with
  | String c rest =>
    match digitValue c with
    | Some d => readDigits rest (acc * 10 + d)%Z (S count)
    | None => (acc, count, s)
    end
  | EmptyString => (acc, count, s)
  end.

Definition parseDecimal (s : string) : JsNumber :=
  let '(whole, wholeDigits, rest) := readDigits s 0%Z 0%nat in
  let '(all, fractionDigits) :=
    match rest with
    | String "."%char afterPoint =>
      let '(value, n, _) := readDigits afterPoint whole 0%nat in (value, n)
    | _ => (whole, 0%nat)
    end in
  if (wholeDigits + fractionDigits =? 0)%nat then NaN
  else Num (Q2Qc (all # Z.to_pos (10 ^ Z.of_nat fractionDigits))).


(** ** Sample data

    Documents and requests the examples below run the handlers on. *)

Definition sampleAllocations : Allocations :=
  mkAllocations (Q2Qc 500000) (Q2Qc 200000) (Q2Qc 150000) (Q2Qc 50000) (Q2Qc 100000).

Definition sampleUser : User :=
  mkUser (Q2Qc 1000000) [] sampleAllocations [].

Definition sampleExpense : ExpenseBody.t :=
  ExpenseBody.mk (Q2Qc 100000) "Tiêu dùng thiết yếu" "gạo" "chợ" None.

Definition exactExpense : ExpenseBody.t :=
  ExpenseBody.mk (Q2Qc 50000) "Từ thiện" "quyên góp" "Hà Nội" (Some "01/11/2026").

Definition sampleInvestment : InvestmentBody.t :=
  InvestmentBody.mk (Q2Qc 50000) (Q2Qc 117000) "Bitcoin ETF".


Definition allDown : Source → nat → AxiosResult :=
  fun source i =>
    match source with
    | CoinGecko => Rejected (HttpStatus 429)
    | CoinMarketCap => Rejected NoResponse
    | Binance => Resolved Malformed
    end.

Definition coldEnvironment : Environment :=
  mkEnvironment (Some (mkRedisClient (fun _ => Reply None))) (Some "key"%string) allDown.


(** ** The requests as server.js handles them

    The same sequence of requests, with the two investment handlers of
    [server.js] in place of the later ones. *)

Definition handle_serverjs (today : string) (user : User) (op : Op) : Outcome :=
  match op with
  | InjectBudget newBudget => post_initial_budget user newBudget
  | RecordExpense body => post_expenses today user body
  | DeleteExpense index => delete_expenses user index
  | RecordInvestment body => post_investments_serverjs today user body
  | DeleteInvestment index => delete_investments_serverjs user index
  end.

Definition step_serverjs (today : string) (user : User) (op : Op) : User :=
  commit user (handle_serverjs today user op).

Definition run_serverjs (today : string) (ops : list Op) (user : User) : User :=
  fold_left (step_serverjs today) ops user.

(** The label the object literal of the expense handlers files a key under. *)
Definition labelOf (k : AllocationKey) : string :=
  match k with
  | KEssentials => "Tiêu dùng thiết yếu"
  | KSavings => "Tiết kiệm bắt buộc"
  | KSelfInvestment => "Đầu tư bản thân"
  | KCharity => "Từ thiện"
  | KEmergency => "Dự phòng linh hoạt"
  end.


(** No request of the sequence records an investment. *)
Definition noRecordInvestment (ops : list Op) : bool :=
  forallb (fun op => negb (isRecordInvestment op)) ops.


(** ** Reading the events of a request *)

(** The back-offs among the events, in milliseconds (each without its
    jitter). *)
Definition waits (events : list Event) : list nat :=
  omap (fun e => match e with Wait ms => Some ms | _ => None end) events.

Definition totalWait (events : list Event) : nat :=
  fold_right Nat.add 0%nat (waits events).

(** The cache writes among the events: key, time to live, value. *)
Definition cacheWrites (events : list Event) : list (string * nat * JsNumber) :=
  omap (fun e =>
    match e with
    | RedisSetEx key ttl value => Some (key, ttl, value)
    | _ => None
    end) events.

(** The attempts [first], [first + 1], ..., [before - 1] are all rejected. *)
Definition rejectedBetween (answer : nat → AxiosResult) (first before : nat) : Prop :=
  ∀ i, (first ≤ i < before)%nat → ∃ error, answer i = Rejected error.


(** ** Bitcoin price history (server.js:85-96 and 389-419; part_000:646-660
    and 1107-1150) *)

Module PricePoint.
Record t := mk {
  date : string;
  price : Qc
}.
End PricePoint.

(** The body of the market-chart answer as far as the handlers read it:
    [data.prices], an array of [[timestamp, price]] pairs, or a body on which
    [data.prices.map] or the destructuring of a pair throws. *)
Inductive HistoryBody :=
| Series (prices : list (Z * Qc))
| MalformedSeries.

(** What [axios.get] gives for the history URL: a response with its status
    (axios resolves on 2xx only), or a rejection. *)
Inductive HistoryResult :=
| HistoryResolved (status : nat) (data : HistoryBody)
| HistoryRejected (error : AxiosError).

(** The Redis client during one history request: what [get('bitcoin_history')]
    does, and whether [setEx] throws. *)
Record HistoryCache := mkHistoryCache {
  getHistory : RedisReply;
  setExThrows : bool
}.

(** What a history request finds: the Redis handle, the answer to its i-th
    [axios.get], and the value of its k-th [Math.random()]. *)
Record HistoryEnvironment := mkHistoryEnvironment {
  historyCache : option HistoryCache;
  historyGet : nat → HistoryResult;
  random : nat → Qc
}.

Inductive HistoryEvent :=
| HistoryRequest
| HistoryWait (ms : nat)
| HistorySetEx (key : string) (ttl : nat) (prices : list PricePoint.t).

Inductive HistoryFetched :=
| HistoryReturned (data : HistoryBody)
| HistoryThrew
| HistoryUndefined.

(** [fetchWithRetry] of part_000:646-660 on the history URL: the loop of
    [fetchLoop], at the type of the history body. *)
Fixpoint fetchHistoryLoop (answer : nat → HistoryResult)
    (retries backoff i remaining : nat) : HistoryFetched * list HistoryEvent :=
  match remaining with
  | O => (HistoryUndefined, [])
  | S remaining' =>
    match answer i with
    | HistoryResolved _ data => (HistoryReturned data, [HistoryRequest])
    | HistoryRejected error =>
      if (i =? retries - 1)%nat then (HistoryThrew, [HistoryRequest])
      else
        let '(result, events) := fetchHistoryLoop answer retries backoff (S i) remaining' in
        (result,
         HistoryRequest
           :: (if is429 error then [HistoryWait (backoff * (i + 1))] else []) ++ events)
    end
  end.

(** [fetchWithRetry(url, retries = 3)] of server.js:85-96: a response whose
    status is not 200 counts as a failure, and every failure but the last is
    followed by a pause of one second. *)
Fixpoint fetchLoop_serverjs (answer : nat → HistoryResult)
    (retries i remaining : nat) : HistoryFetched * list HistoryEvent :=
  match remaining with
  | O => (HistoryUndefined, [])
  | S remaining' =>
    let failed :=
      if (i =? retries - 1)%nat then (HistoryThrew, [HistoryRequest])
      else
        let '(result, events) := fetchLoop_serverjs answer retries (S i) remaining' in
        (result, HistoryRequest :: HistoryWait 1000 :: events) in
    match answer i with
    | HistoryResolved status data =>
      if (status =? 200)%nat then (HistoryReturned data, [HistoryRequest]) else failed
    | HistoryRejected _ => failed
    end
  end.

(** The number of upstream requests among the events. *)
Definition historyRequests (events : list HistoryEvent) : nat :=
  length (omap (fun e => match e with HistoryRequest => Some tt | _ => None end) events).

Definition historyWaits (events : list HistoryEvent) : list nat :=
  omap (fun e => match e with HistoryWait ms => Some ms | _ => None end) events.

(** [117783.89 * (1 + (Math.random() - 0.5) * 0.1)], in exact arithmetic:
    the number the server computes is this one rounded. *)
Definition syntheticPrice (r : Qc) : Qc :=
  Q2Qc 117783.89 * (1 + (r - Q2Qc 0.5) * Q2Qc 0.1).

Section HistoryHandlers.

(** The value [JSON.parse] gives, or [None] where it throws. *)
Variable Json : Type.
Variable JSON_parse : string → option Json.

(** [new Date(timestamp).toISOString().split('T')[0]], or [None] where
    [toISOString] throws (a time outside the range of dates). *)
Variable isoDate : Z → option string.

(** The same for the date [i] days before today, which is always in range. *)
Variable isoDaysAgo : nat → string.

Inductive HistoryAnswer :=
| Cached (json : Json)
| Prices (points : list PricePoint.t).

(** [data.prices.map(([timestamp, price]) => ({ date: ..., price }))] *)
Definition toPoints (prices : list (Z * Qc)) : option (list PricePoint.t) :=
  mapM (fun '(timestamp, price) =>
          match isoDate timestamp with
          | Some date => Some (PricePoint.mk date price)
          | None => None
          end) prices.

(** The series of the [catch] block: the loop runs [i] from 6 down to 0 and
    draws one random number per day; [drawn] random numbers were used before
    it in this request. *)
Definition syntheticHistory (env : HistoryEnvironment) (drawn : nat) : list PricePoint.t :=
  map (fun k => PricePoint.mk (isoDaysAgo (6 - k)) (syntheticPrice (random env (drawn + k))))
      (seq 0 7).

(** The cached series, when the client is there, [get] resolves to a truthy
    text and [JSON.parse] accepts it. *)
Definition cachedHistory (env : HistoryEnvironment) : option Json :=
  match historyCache env with
  | Some cache =>
    match getHistory cache with
    | Reply (Some text) => if notEmpty text then JSON_parse text else None
    | Reply None => None
    | RedisFailure => None
    end
  | None => None
  end.

(** [GET /api/bitcoin-history] (part_000:1107-1150).  Both Redis calls sit in
    a [try] of their own; the back-off jitter of the fetch draws one random
    number per wait. *)
Definition get_bitcoin_history (env : HistoryEnvironment) : HistoryAnswer * list HistoryEvent :=
  match cachedHistory env with
  | Some json => (Cached json, [])
  | None =>
    let '(result, events) := fetchHistoryLoop (historyGet env) 3 1000 0 3 in
    let synthetic := Prices (syntheticHistory env (length (historyWaits events))) in
    match result with
    | HistoryReturned (Series prices) =>
      match toPoints prices with
      | Some points =>
        (Prices points,
         events ++ match historyCache env with
                   | Some _ => [HistorySetEx "bitcoin_history" 300 points]
                   | None => []
                   end)
      | None => (synthetic, events)
      end
    | HistoryReturned MalformedSeries | HistoryThrew | HistoryUndefined =>
      (synthetic, events)
    end
  end.

(** [GET /api/bitcoin-history] (server.js:389-419).  The Redis calls and
    [JSON.parse] sit directly in the outer [try]: whatever throws there ends
    in the [catch] block. *)
Definition get_bitcoin_history_serverjs (env : HistoryEnvironment)
    : HistoryAnswer * list HistoryEvent :=
  let synthetic := Prices (syntheticHistory env 0) in
  let fetched :=
    let '(result, events) := fetchLoop_serverjs (historyGet env) 3 0 3 in
    match result with
    | HistoryReturned (Series prices) =>
      match toPoints prices with
      | Some points =>
        match historyCache env with
        | Some cache =>
          (if setExThrows cache then synthetic else Prices points,
           events ++ [HistorySetEx "bitcoin_history" 300 points])
        | None => (Prices points, events)
        end
      | None => (synthetic, events)
      end
    | HistoryReturned MalformedSeries | HistoryThrew | HistoryUndefined =>
      (synthetic, events)
    end in
  match historyCache env with
  | Some cache =>
    match getHistory cache with
    | Reply (Some text) =>
      if notEmpty text then
        match JSON_parse text with
        | Some json => (Cached json, [])
        | None => (synthetic, [])
        end
      else fetched
    | Reply None => fetched
    | RedisFailure => (synthetic, [])
    end
  | None => fetched
  end.

End HistoryHandlers.

Arguments Cached {Json} json.
Arguments Prices {Json} points.


(** A history request whose cache is empty and whose [setEx] throws, with a
    healthy upstream; and one whose cache read fails. *)
Definition sampleSeries : list (Z * Qc) :=
  [(1761955200000%Z, Q2Qc 110000); (1762041600000%Z, Q2Qc 111500)].

Definition failingWrite : HistoryEnvironment :=
  mkHistoryEnvironment
    (Some (mkHistoryCache (Reply None) true))
    (fun _ => HistoryResolved 200 (Series sampleSeries))
    (fun _ => Q2Qc 0.25).

Definition failingRead : HistoryEnvironment :=
  mkHistoryEnvironment
    (Some (mkHistoryCache RedisFailure false))
    (fun _ => HistoryResolved 200 (Series sampleSeries))
    (fun _ => Q2Qc 0.25).

(** Stand-ins for the date functions and [JSON.parse] in the examples. *)
Definition sampleIsoDate (timestamp : Z) : option string :=
  if (timestamp =? 1761955200000)%Z then Some "2025-11-01"%string
  else if (timestamp =? 1762041600000)%Z then Some "2025-11-02"%string
  else None.

Definition sampleDaysAgo (i : nat) : string :=
  match i with
  | O => "2026-11-02"
  | 1 => "2026-11-01"
  | 2 => "2026-10-31"
  | 3 => "2026-10-30"
  | 4 => "2026-10-29"
  | 5 => "2026-10-28"
  | _ => "2026-10-27"
  end%string.

Definition sampleParse (text : string) : option string :=
  if String.eqb text "[]" then Some text else None.


(** ** Investment analysis (part_000:1152-1192) *)

(** The two rules of the recommendations, in the order they are pushed. *)
Inductive Recommendation :=
| Diversify
| SaveMore.

Record Analysis := mkAnalysis {
  totalInvested : Qc;
  currentValue : Qc;
  roi : Qc;
  recommendations : list Recommendation
}.

(** The answer of the handler: the analysis, or the status and code of the
    outer [catch]. *)
Inductive AnalysisAnswer :=
| Analysed (body : Analysis)
| AnalysisFailed (status : nat) (code : Code).

(** The handler after the price lookup (part_000:1164-1187).

    With no element on file both [reduce] calls return their start value 0;
    [totalInvested > 0] is false, so [roi] and [portfolioRatio] are 0, and
    [parseFloat(roi.toFixed(2))] is 0.

    With an element on file the callback of the second [reduce] starts with
    [inv.type.toLowerCase()]: [inv.type] of a string is [undefined], the call
    throws and the outer [catch] answers 500.  [currentPrice] is read in that
    callback only, after the call that throws. *)
Definition analyze (currentPrice : option Qc) (user : User) : AnalysisAnswer :=
  match investmentHistory user with
  | [] =>
    let totalInvested := 0 in
    let currentValue := 0 in
    let roi := 0 in
    let portfolioRatio := 0 in
    Analysed (mkAnalysis totalInvested currentValue roi
      ((if js_gt portfolioRatio (Q2Qc 0.1) then [Diversify] else [])
       ++ (if js_gt (initialBudget user * Q2Qc 0.2) (savings (allocations user))
           then [SaveMore] else [])))
  | _ :: _ => AnalysisFailed 500 SERVER_ERROR
  end.

(** The current price of the analysis: what CoinGecko's body has at
    [bitcoin.usd] ([undefined] when the property is absent), or 117783.89
    when [fetchWithRetry] throws or the path does. *)
Definition analysisPrice (env : Environment) : option Qc * list Event :=
  let '(result, events) := fetchWithRetry CoinGecko (axiosGet env CoinGecko) 3 1000 in
  match result with
  | Returned (Quote price) => (Some price, events)
  | Returned NoPrice => (None, events)
  | Returned Malformed | Threw _ | ReturnedUndefined => (Some (Q2Qc 117783.89), events)
  end.

(** [GET /api/investment-analysis] (part_000:1152-1192). *)
Definition get_investment_analysis (env : Environment) (user : User)
    : AnalysisAnswer * list Event :=
  let '(currentPrice, events) := analysisPrice env in
  (analyze currentPrice user, events).

(** ** The budget and expense handlers on binary64

    The same three handlers with the numbers the server computes on:
    [Number] is IEEE-754 binary64, here Rocq's primitive floats, whose
    operations round to nearest, ties to even, as JavaScript's do.  A
    decimal literal stands for the nearest binary64 value, in the source and
    here.  A stored number is never [NaN] (the cast of a [Number] path
    refuses it), and the handlers below make none from a document without
    one. *)

Set Warnings "-inexact-float".

Module Binary64.

Import PrimFloat.
Local Open Scope float_scope.

Module Expense.
Record t := mk {
  amount : float;
  category : string;
  date : string;
  purpose : string;
  location : string
}.
End Expense.

Record Allocations := mkAllocations {
  essentials : float;
  savings : float;
  selfInvestment : float;
  charity : float;
  emergency : float
}.

Record User := mkUser {
  initialBudget : float;
  expenses : list Expense.t;
  allocations : Allocations;
  investmentHistory : list string
}.

Definition newUser : User :=
  mkUser 0 [] (mkAllocations 0 0 0 0 0) [].

Definition getAllocation (a : Allocations) (k : AllocationKey) : float :=
  match k with
  | KEssentials => essentials a
  | KSavings => savings a
  | KSelfInvestment => selfInvestment a
  | KCharity => charity a
  | KEmergency => emergency a
  end.

Definition setAllocation (a : Allocations) (k : AllocationKey) (v : float) : Allocations :=
  match k with
  | KEssentials => mkAllocations v (savings a) (selfInvestment a) (charity a) (emergency a)
  | KSavings => mkAllocations (essentials a) v (selfInvestment a) (charity a) (emergency a)
  | KSelfInvestment => mkAllocations (essentials a) (savings a) v (charity a) (emergency a)
  | KCharity => mkAllocations (essentials a) (savings a) (selfInvestment a) v (emergency a)
  | KEmergency => mkAllocations (essentials a) (savings a) (selfInvestment a) (charity a) v
  end.

Inductive Outcome :=
| Saved (user : User)
| Refused (status : nat) (code : Code).

Definition commit (stored : User) (o : Outcome) : User :=
  match o with
  | Saved user => user
  | Refused _ _ => stored
  end.

Module ExpenseBody.
Record t := mk {
  amount : float;
  category : string;
  purpose : string;
  location : string;
  date : option string
}.
End ExpenseBody.

(** [amount > limit] *)
Definition js_gt (x y : float) : bool := ltb y x.

(** [isFloat({ min: 0 })]: the validator reads the text of the value, which
    is a decimal numeral for a finite number only, and compares. *)
Definition isFloat_min0 (x : float) : bool := is_finite x && leb 0 x.

(** [POST /api/initial-budget] (server.js:140-163). *)
Definition post_initial_budget (user : User) (newBudget : float) : Outcome :=
  if negb (isFloat_min0 newBudget) then Refused 400 VALIDATION_ERROR
  else
    let a := allocations user in
    Saved (mkUser
      (initialBudget user + newBudget)
      (expenses user)
      (mkAllocations
         (essentials a + newBudget * 0.5)
         (savings a + newBudget * 0.2)
         (selfInvestment a + newBudget * 0.15)
         (charity a + newBudget * 0.05)
         (emergency a + newBudget * 0.1))
      (investmentHistory user)).

Definition exceedsAllocation (amount : float) (a : Allocations) (key : Lookup) : bool :=
  match key with
  | Own k => js_gt amount (getAllocation a k)
  | Inherited | Undefined => false
  end.

(** [user.allocations[categoryKey] -= amount] *)
Definition subtractAllocation (a : Allocations) (key : Lookup) (amount : float) : Allocations :=
  match key with
  | Own k => setAllocation a k (getAllocation a k - amount)
  | Inherited | Undefined => a
  end.

(** [user.allocations[categoryKey] += amount] *)
Definition addAllocation (a : Allocations) (key : Lookup) (amount : float) : Allocations :=
  match key with
  | Own k => setAllocation a k (getAllocation a k + amount)
  | Inherited | Undefined => a
  end.

(** [POST /api/expenses] (server.js:185-227). *)
Definition post_expenses (today : string) (user : User) (body : ExpenseBody.t) : Outcome :=
  let amount := ExpenseBody.amount body in
  let category := ExpenseBody.category body in
  if negb (isFloat_min0 amount && notEmpty category
           && notEmpty (ExpenseBody.purpose body)
           && notEmpty (ExpenseBody.location body))
  then Refused 400 VALIDATION_ERROR
  else
    match categoryKey category with
    | Undefined => Refused 400 INVALID_CATEGORY
    | key =>
      if exceedsAllocation amount (allocations user) key
      then Refused 400 INSUFFICIENT_ALLOCATION
      else
        let newExpense :=
          Expense.mk amount category
            (dateOrToday today (ExpenseBody.date body))
            (ExpenseBody.purpose body) (ExpenseBody.location body) in
        Saved (mkUser
          (initialBudget user - amount)
          (expenses user ++ [newExpense])
          (subtractAllocation (allocations user) key amount)
          (investmentHistory user))
    end.

(** [DELETE /api/expenses/:index] (server.js:229-253). *)
Definition delete_expenses (user : User) (index : ParsedInt) : Outcome :=
  if indexOutOfRange index (length (expenses user))
  then Refused 400 INVALID_INDEX
  else
    match elementAt (expenses user) index with
    | None => Refused 500 SERVER_ERROR
    | Some deletedExpense =>
      let key := categoryKey (Expense.category deletedExpense) in
      Saved (mkUser
        (initialBudget user + Expense.amount deletedExpense)
        (splice1 (expenses user) index)
        (addAllocation (allocations user) key (Expense.amount deletedExpense))
        (investmentHistory user))
    end.

(** [(x - amount) + amount], each operation rounded: what a debit followed
    by the credit of the same amount leaves of [x]. *)
Definition thereAndBack (x amount : float) : float := (x - amount) + amount.

(** The scenario of the specification: 1,000,000 injected into a new
    account, then 100,000 spent on "Tiêu dùng thiết yếu". *)
Definition scenarioUser : User :=
  commit newUser (post_initial_budget newUser 1000000).

Definition scenarioExpense : ExpenseBody.t :=
  ExpenseBody.mk 100000 "Tiêu dùng thiết yếu" "gạo" "chợ" None.

(** The same with 2.9 injected and 0.7 spent. *)
Definition decimalUser : User :=
  commit newUser (post_initial_budget newUser 2.9).

Definition decimalExpense : ExpenseBody.t :=
  ExpenseBody.mk 0.7 "Tiêu dùng thiết yếu" "gạo" "chợ" None.

End Binary64.

(** * Properties *)

(** ** Arithmetic of the sums *)






Lemma sumAllocations_unfold (a : Allocations) :
  sumAllocations a
  = essentials a + savings a + selfInvestment a + charity a + emergency a.
Proof.
  unfold sumAllocations, allocationValues, reduceSum. simpl. ring.
Qed.


Lemma getAllocation_set_same (a : Allocations) (k : AllocationKey) (v : Qc) :
  getAllocation (setAllocation a k v) k = v.
Proof. destruct k; reflexivity. Qed.

Lemma getAllocation_set_other (a : Allocations) (k k' : AllocationKey) (v : Qc) :
  k ≠ k' → getAllocation (setAllocation a k v) k' = getAllocation a k'.
Proof. destruct k, k'; simpl; congruence. Qed.

Lemma setAllocation_set (a : Allocations) (k : AllocationKey) (v w : Qc) :
  setAllocation (setAllocation a k v) k w = setAllocation a k w.
Proof. destruct k; reflexivity. Qed.

Lemma setAllocation_get (a : Allocations) (k : AllocationKey) :
  setAllocation a k (getAllocation a k) = a.
Proof. destruct a, k; reflexivity. Qed.

Lemma adjustAllocation_back (a : Allocations) (key : Lookup) (x : Qc) :
  adjustAllocation (adjustAllocation a key (- x)) key x = a.
Proof.
  destruct key as [k| |]; simpl; try reflexivity.
  rewrite getAllocation_set_same, setAllocation_set.
  replace (getAllocation a k + - x + x) with (getAllocation a k) by ring.
  apply setAllocation_get.
Qed.

(** The five weights of an injection add up to one. *)
Lemma weights_total :
  Q2Qc 0.5 + Q2Qc 0.2 + Q2Qc 0.15 + Q2Qc 0.05 + Q2Qc 0.1 = 1.
Proof. apply Qc_is_canon. reflexivity. Qed.

(** ** The comparisons, as propositions *)

Lemma js_gt_true (x y : Qc) : js_gt x y = true ↔ y < x.
Proof. unfold js_gt. apply bool_decide_eq_true. Qed.

Lemma js_gt_false (x y : Qc) : js_gt x y = false ↔ x ≤ y.
Proof. unfold js_gt. rewrite bool_decide_eq_false. symmetry. apply Qcle_ngt. Qed.

Lemma isFloat_min0_true (x : Qc) : isFloat_min0 x = true ↔ 0 ≤ x.
Proof. unfold isFloat_min0. apply bool_decide_eq_true. Qed.

Lemma isFloat_min0_false (x : Qc) : isFloat_min0 x = false ↔ x < 0.
Proof. unfold isFloat_min0. rewrite bool_decide_eq_false. symmetry. apply Qclt_nge. Qed.

Lemma notEmpty_true (s : string) : notEmpty s = true ↔ s ≠ EmptyString.
Proof.
  unfold notEmpty. rewrite negb_true_iff. split.
  - intros H ->. discriminate.
  - intros H. destruct s; [congruence | reflexivity].
Qed.

(** ** Indices *)

Lemma indexOutOfRange_false (z : Z) (n : nat) :
  indexOutOfRange (Int z) n = false ↔ (0 ≤ z < Z.of_nat n)%Z.
Proof. unfold indexOutOfRange. rewrite orb_false_iff, Z.ltb_ge, Z.leb_gt. tauto. Qed.


Lemma elementAt_in_range {A} (xs : list A) (z : Z) :
  (0 ≤ z)%Z → elementAt xs (Int z) = xs !! Z.to_nat z.
Proof. intros H. unfold elementAt. apply Z.ltb_ge in H. rewrite H. reflexivity. Qed.

Lemma splice1_in_range {A} (xs : list A) (z : Z) :
  (0 ≤ z)%Z → splice1 xs (Int z) = delete (Z.to_nat z) xs.
Proof. intros H. unfold splice1. apply Z.ltb_ge in H. rewrite H. reflexivity. Qed.

Lemma delete_last {A} (xs : list A) (x : A) :
  delete (length xs) (xs ++ [x]) = xs.
Proof. induction xs as [|y xs IH]; simpl; [reflexivity | f_equal; exact IH]. Qed.

Lemma lookup_last {A} (xs : list A) (x : A) :
  (xs ++ [x]) !! length xs = Some x.
Proof. induction xs as [|y xs IH]; simpl; [reflexivity | exact IH]. Qed.

(** ** What each handler does when it accepts *)

Lemma post_expenses_saved (today : string) (user user' : User) (body : ExpenseBody.t) :
  post_expenses today user body = Saved user' →
  let amount := ExpenseBody.amount body in
  let key := categoryKey (ExpenseBody.category body) in
  0 ≤ amount
  ∧ key ≠ Undefined
  ∧ exceedsAllocation amount (allocations user) key = false
  ∧ user' = mkUser
      (initialBudget user - amount)
      (expenses user ++
         [Expense.mk amount (ExpenseBody.category body)
            (dateOrToday today (ExpenseBody.date body))
            (ExpenseBody.purpose body) (ExpenseBody.location body)])
      (adjustAllocation (allocations user) key (- amount))
      (investmentHistory user).
Proof.
  unfold post_expenses. intros H.
  destruct (isFloat_min0 (ExpenseBody.amount body)) eqn:Hamount; simpl in H;
    [|discriminate].
  apply isFloat_min0_true in Hamount.
  destruct (notEmpty (ExpenseBody.category body) && _ && _); simpl in H;
    [|discriminate].
  destruct (categoryKey (ExpenseBody.category body)) as [k| |] eqn:Hkey;
    cbv iota beta in H; try discriminate.
  - simpl. destruct (js_gt _ _) eqn:Hexceeds; [discriminate|].
    injection H as <-. repeat split; try assumption; congruence.
  - injection H as <-. repeat split; try assumption; congruence.
Qed.

Lemma delete_expenses_at (user : User) (z : Z) (e : Expense.t) :
  (0 ≤ z)%Z →
  expenses user !! Z.to_nat z = Some e →
  delete_expenses user (Int z)
  = Saved (mkUser
      (initialBudget user + Expense.amount e)
      (delete (Z.to_nat z) (expenses user))
      (adjustAllocation (allocations user) (categoryKey (Expense.category e))
         (Expense.amount e))
      (investmentHistory user)).
Proof.
  intros Hz Hlookup. unfold delete_expenses.
  assert (Hin : indexOutOfRange (Int z) (length (expenses user)) = false).
  { apply indexOutOfRange_false. apply lookup_lt_Some in Hlookup. lia. }
  rewrite Hin, elementAt_in_range, Hlookup, splice1_in_range by assumption.
  reflexivity.
Qed.

(** In exact arithmetic an expense that [POST /api/expenses] accepted,
    deleted at once at the index it was appended at, gives the document
    back.  (On the machine's numbers see [Binary64] below.) *)
Lemma post_expenses_then_delete_exact
    (today : string) (user user' : User) (body : ExpenseBody.t) :
  post_expenses today user body = Saved user' →
  delete_expenses user' (Int (Z.of_nat (length (expenses user)))) = Saved user.
Proof.
  intros H. apply post_expenses_saved in H as (_ & _ & _ & ->).
  rewrite (delete_expenses_at _ _
    (Expense.mk (ExpenseBody.amount body) (ExpenseBody.category body)
       (dateOrToday today (ExpenseBody.date body))
       (ExpenseBody.purpose body) (ExpenseBody.location body))).
  - simpl. rewrite Nat2Z.id, delete_last, adjustAllocation_back.
    destruct user as [budget es a invs]. simpl. do 2 f_equal. ring.
  - lia.
  - simpl. rewrite Nat2Z.id. apply lookup_last.
Qed.

(** ** The inverse property on binary64 *)

Section InverseOnBinary64.

Import PrimFloat.
Local Open Scope float_scope.

Lemma binary64_post_expenses_saved
    (today : string) (user user' : Binary64.User) (body : Binary64.ExpenseBody.t) :
  Binary64.post_expenses today user body = Binary64.Saved user' →
  user' = Binary64.mkUser
    (Binary64.initialBudget user - Binary64.ExpenseBody.amount body)
    (Binary64.expenses user ++
       [Binary64.Expense.mk (Binary64.ExpenseBody.amount body)
          (Binary64.ExpenseBody.category body)
          (dateOrToday today (Binary64.ExpenseBody.date body))
          (Binary64.ExpenseBody.purpose body) (Binary64.ExpenseBody.location body)])
    (Binary64.subtractAllocation (Binary64.allocations user)
       (categoryKey (Binary64.ExpenseBody.category body))
       (Binary64.ExpenseBody.amount body))
    (Binary64.investmentHistory user).
Proof.
  unfold Binary64.post_expenses. intros H.
  destruct (negb _); [discriminate|].
  destruct (categoryKey (Binary64.ExpenseBody.category body)) as [k| |];
    cbv iota beta in H; try discriminate.
  - destruct (Binary64.exceedsAllocation _ _ _); [discriminate|].
    injection H as <-. reflexivity.
  - cbn [Binary64.exceedsAllocation] in H. injection H as <-. reflexivity.
Qed.

Lemma binary64_there_and_back (a : Binary64.Allocations) (key : Lookup) (amount : float)
    (k : AllocationKey) :
  Binary64.getAllocation
    (Binary64.addAllocation (Binary64.subtractAllocation a key amount) key amount) k
  = if decide (key = Own k)
    then Binary64.thereAndBack (Binary64.getAllocation a k) amount
    else Binary64.getAllocation a k.
Proof.
  destruct key as [k'| |].
  - cbn [Binary64.subtractAllocation Binary64.addAllocation].
    destruct (decide (Own k' = Own k)) as [Heq|Hne].
    + injection Heq as ->. destruct k, a; reflexivity.
    + destruct k, k', a; try reflexivity; exfalso; apply Hne; reflexivity.
  - destruct (decide (Inherited = Own k)); [discriminate | reflexivity].
  - destruct (decide (Undefined = Own k)); [discriminate | reflexivity].
Qed.

(** C3, on the numbers of the server.  An expense that [POST /api/expenses]
    accepted, deleted at once at the index it was appended at, is gone from
    the list, which is the list of before; the investment list and the
    balances of the other categories are untouched; [initialBudget] and the
    balance of the category come back as [(x - amount) + amount], each of
    the two operations rounded to binary64. *)
Theorem post_expenses_then_delete_rounds
    (today : string) (user user' : Binary64.User) (body : Binary64.ExpenseBody.t) :
  Binary64.post_expenses today user body = Binary64.Saved user' →
  let amount := Binary64.ExpenseBody.amount body in
  let key := categoryKey (Binary64.ExpenseBody.category body) in
  ∃ user'',
    Binary64.delete_expenses user' (Int (Z.of_nat (length (Binary64.expenses user))))
    = Binary64.Saved user''
    ∧ Binary64.expenses user'' = Binary64.expenses user
    ∧ Binary64.investmentHistory user'' = Binary64.investmentHistory user
    ∧ Binary64.initialBudget user''
      = Binary64.thereAndBack (Binary64.initialBudget user) amount
    ∧ ∀ k, Binary64.getAllocation (Binary64.allocations user'') k
           = if decide (key = Own k)
             then Binary64.thereAndBack (Binary64.getAllocation (Binary64.allocations user) k)
                    amount
             else Binary64.getAllocation (Binary64.allocations user) k.
Proof.
  intros H amount key. apply binary64_post_expenses_saved in H as ->.
  unfold Binary64.delete_expenses.
  cbn [Binary64.expenses Binary64.initialBudget Binary64.allocations
       Binary64.investmentHistory].
  assert (Hin : indexOutOfRange (Int (Z.of_nat (length (Binary64.expenses user))))
                  (length (Binary64.expenses user ++
                     [Binary64.Expense.mk (Binary64.ExpenseBody.amount body)
                        (Binary64.ExpenseBody.category body)
                        (dateOrToday today (Binary64.ExpenseBody.date body))
                        (Binary64.ExpenseBody.purpose body)
                        (Binary64.ExpenseBody.location body)])) = false).
  { apply indexOutOfRange_false. rewrite length_app. cbn [length]. lia. }
  rewrite Hin, elementAt_in_range, splice1_in_range by lia.
  rewrite Nat2Z.id, lookup_last, delete_last.
  cbn [Binary64.Expense.amount Binary64.Expense.category].
  eexists. split; [reflexivity|].
  cbn [Binary64.expenses Binary64.initialBudget Binary64.allocations
       Binary64.investmentHistory].
  split; [reflexivity|]. split; [reflexivity|]. split; [reflexivity|].
  intros k. apply binary64_there_and_back.
Qed.

(** At the scenario of the specification. *)
Lemma post_expenses_then_delete_rounds_witness :
  ∃ user'',
    Binary64.delete_expenses
      (Binary64.commit Binary64.scenarioUser
         (Binary64.post_expenses "1/11/2026" Binary64.scenarioUser Binary64.scenarioExpense))
      (Int (Z.of_nat (length (Binary64.expenses Binary64.scenarioUser))))
    = Binary64.Saved user''
    ∧ Binary64.expenses user'' = Binary64.expenses Binary64.scenarioUser
    ∧ Binary64.investmentHistory user'' = Binary64.investmentHistory Binary64.scenarioUser
    ∧ Binary64.initialBudget user''
      = Binary64.thereAndBack (Binary64.initialBudget Binary64.scenarioUser)
          (Binary64.ExpenseBody.amount Binary64.scenarioExpense)
    ∧ ∀ k, Binary64.getAllocation (Binary64.allocations user'') k
           = if decide
                  (categoryKey (Binary64.ExpenseBody.category Binary64.scenarioExpense)
                   = Own k)
             then Binary64.thereAndBack
                    (Binary64.getAllocation (Binary64.allocations Binary64.scenarioUser) k)
                    (Binary64.ExpenseBody.amount Binary64.scenarioExpense)
             else Binary64.getAllocation (Binary64.allocations Binary64.scenarioUser) k.
Proof.
  apply (post_expenses_then_delete_rounds "1/11/2026" Binary64.scenarioUser _
           Binary64.scenarioExpense).
  vm_compute. reflexivity.
Defined.

(** In that scenario both round trips are exact: 1,000,000 and 500,000 come
    back, and the document is the one of before. *)
Example scenario_restored :
  Binary64.delete_expenses
    (Binary64.commit Binary64.scenarioUser
       (Binary64.post_expenses "1/11/2026" Binary64.scenarioUser Binary64.scenarioExpense))
    (Int 0)
  = Binary64.Saved Binary64.scenarioUser
  ∧ Binary64.initialBudget Binary64.scenarioUser = 1000000
  ∧ Binary64.essentials (Binary64.allocations Binary64.scenarioUser) = 500000.
Proof. split; [|split]; vm_compute; reflexivity. Qed.

(** C3, as the specification words it, fails on decimal amounts.  With 2.9
    injected into a new account, an expense of 0.7 on "Tiêu dùng thiết yếu"
    is accepted, and its deletion is accepted; [initialBudget] was 2.9 and
    is 2.9000000000000004 afterwards. *)
Lemma post_expenses_then_delete_is_not_exact :
  ∃ user' user'',
    Binary64.post_expenses "1/11/2026" Binary64.decimalUser Binary64.decimalExpense
    = Binary64.Saved user'
    ∧ Binary64.delete_expenses user'
        (Int (Z.of_nat (length (Binary64.expenses Binary64.decimalUser))))
      = Binary64.Saved user''
    ∧ Binary64.initialBudget Binary64.decimalUser = 2.9
    ∧ Binary64.initialBudget user'' = 2.9000000000000004
    ∧ user'' ≠ Binary64.decimalUser.
Proof.
  eexists. eexists.
  split; [vm_compute; reflexivity|].
  split; [vm_compute; reflexivity|].
  split; [vm_compute; reflexivity|].
  split; [vm_compute; reflexivity|].
  intros H.
  apply (f_equal (fun u => eqb (Binary64.initialBudget u) 2.9)) in H.
  vm_compute in H. discriminate.
Qed.

End InverseOnBinary64.

(** C10.  With non-negative balances, an expense whose amount equals the
    balance of the category its label resolves to is accepted (the guard is
    [amount > balance], strict), and that balance is zero afterwards.  The
    body is otherwise well formed: purpose and location are not empty. *)
Theorem post_expenses_exact_balance
    (today : string) (user : User) (body : ExpenseBody.t) (k : AllocationKey) :
  allocationsNonNegative (allocations user) →
  categoryKey (ExpenseBody.category body) = Own k →
  ExpenseBody.amount body = getAllocation (allocations user) k →
  ExpenseBody.purpose body ≠ EmptyString →
  ExpenseBody.location body ≠ EmptyString →
  ∃ user',
    post_expenses today user body = Saved user'
    ∧ getAllocation (allocations user') k = 0.
Proof.
  intros Hnonneg Hkey Hamount Hpurpose Hlocation.
  unfold post_expenses.
  assert (Hvalid : isFloat_min0 (ExpenseBody.amount body) = true).
  { apply isFloat_min0_true. rewrite Hamount. apply Hnonneg. }
  assert (Hcategory : notEmpty (ExpenseBody.category body) = true).
  { apply notEmpty_true. intros Hempty. rewrite Hempty in Hkey. discriminate. }
  apply notEmpty_true in Hpurpose, Hlocation.
  rewrite Hvalid, Hcategory, Hpurpose, Hlocation, Hkey. simpl.
  assert (Hfits : js_gt (ExpenseBody.amount body) (getAllocation (allocations user) k) = false).
  { apply js_gt_false. rewrite Hamount. apply Qcle_refl. }
  rewrite Hfits. eexists. split; [reflexivity|]. simpl.
  rewrite getAllocation_set_same, Hamount. ring.
Qed.

Lemma post_expenses_exact_balance_witness :
  ∃ user',
    post_expenses "1/11/2026" sampleUser exactExpense = Saved user'
    ∧ getAllocation (allocations user') KCharity = 0.
Proof.
  apply (post_expenses_exact_balance "1/11/2026" sampleUser exactExpense KCharity).
  - intros k. apply isFloat_min0_true. destruct k; vm_compute; reflexivity.
  - vm_compute. reflexivity.
  - apply Qc_is_canon. vm_compute. reflexivity.
  - discriminate.
  - discriminate.
Defined.

(** ** Investments: nothing is ever stored *)

(** Whatever the document and the body, neither [POST /api/investments]
    answers by saving. *)
Lemma post_investments_refused (today : string) (user : User) (body : InvestmentBody.t) :
  accepted (post_investments today user body) = false
  ∧ accepted (post_investments_serverjs today user body) = false.
Proof.
  unfold post_investments, post_investments_serverjs. split.
  - destruct (negb _); [reflexivity|].
    destruct (js_gt _ _); [reflexivity|].
    destruct (portfolioRisk _ _); reflexivity.
  - destruct (negb _); [reflexivity|].
    destruct (js_gt _ _); [reflexivity|].
    destruct (portfolioRisk _ _); reflexivity.
Qed.

(** A request that passes the validators and both guards is answered 500. *)
Lemma post_investments_past_guards
    (today : string) (user : User) (body : InvestmentBody.t) :
  validInvestmentBody body = true →
  InvestmentBody.amount body
  ≤ selfInvestment (allocations user) + emergency (allocations user) →
  investmentHistory user = [] →
  (0 < sumAllocations (allocations user) →
   InvestmentBody.amount body / sumAllocations (allocations user) ≤ Q2Qc 0.1) →
  post_investments today user body = Refused 500 SERVER_ERROR
  ∧ post_investments_serverjs today user body = Refused 500 SERVER_ERROR.
Proof.
  intros Hvalid Hbudget Hempty Hshare.
  apply js_gt_false in Hbudget.
  assert (Hrisk : portfolioRisk (InvestmentBody.amount body)
                    (Num (sumAllocations (allocations user))) = false).
  { cbn [portfolioRisk].
    destruct (js_gt (sumAllocations (allocations user)) 0) eqn:Hpos; [|reflexivity].
    apply js_gt_true in Hpos. cbn [andb]. apply js_gt_false, Hshare, Hpos. }
  unfold post_investments, post_investments_serverjs.
  rewrite Hvalid, Hbudget, Hempty. cbn [negb sumInvestments fold_left].
  replace (sumAllocations (allocations user) + 0)
    with (sumAllocations (allocations user)) by ring.
  rewrite Hrisk. split; reflexivity.
Qed.

(** [DELETE /api/investments/:index] of the later version never answers by
    saving either. *)
Lemma delete_investments_refused (user : User) (index : ParsedInt) :
  accepted (delete_investments user index) = false.
Proof.
  unfold delete_investments.
  destruct (indexOutOfRange _ _); [reflexivity|].
  destruct (elementAt _ _); reflexivity.
Qed.

(** C4 on a request the guards let through.  One million is injected into
    a new account; an investment of 50,000 (within [selfInvestment], which
    is 150,000, and a twentieth of the portfolio) passes the validators and
    both guards, and is answered 500: [investmentHistory.push] throws on the
    object, nothing is appended and [selfInvestment] is not debited.  No
    request at all is answered by saving, in either version of the
    handler. *)
Theorem post_investments_stores_nothing :
  let today := "1/11/2026"%string in
  let user := commit newUser (post_initial_budget newUser (Q2Qc 1000000)) in
  validInvestmentBody sampleInvestment = true
  ∧ InvestmentBody.amount sampleInvestment ≤ selfInvestment (allocations user)
  ∧ post_investments today user sampleInvestment = Refused 500 SERVER_ERROR
  ∧ post_investments_serverjs today user sampleInvestment = Refused 500 SERVER_ERROR
  ∧ commit user (post_investments today user sampleInvestment) = user
  ∧ (∀ today' user' body,
       accepted (post_investments today' user' body) = false
       ∧ accepted (post_investments_serverjs today' user' body) = false).
Proof.
  intros today user.
  assert (Hrefused : post_investments today user sampleInvestment = Refused 500 SERVER_ERROR)
    by (vm_compute; reflexivity).
  split; [vm_compute; reflexivity|].
  split; [apply js_gt_false; vm_compute; reflexivity|].
  split; [exact Hrefused|].
  split; [vm_compute; reflexivity|].
  split; [rewrite Hrefused; reflexivity|].
  intros today' user' body. apply post_investments_refused.
Qed.

(** What an accepted injection stores. *)
Lemma post_initial_budget_accepted (user : User) (newBudget : Qc) :
  0 ≤ newBudget →
  post_initial_budget user newBudget
  = Saved (mkUser
      (initialBudget user + newBudget)
      (expenses user)
      (mkAllocations
         (essentials (allocations user) + newBudget * Q2Qc 0.5)
         (savings (allocations user) + newBudget * Q2Qc 0.2)
         (selfInvestment (allocations user) + newBudget * Q2Qc 0.15)
         (charity (allocations user) + newBudget * Q2Qc 0.05)
         (emergency (allocations user) + newBudget * Q2Qc 0.1))
      (investmentHistory user)).
Proof.
  intros H. unfold post_initial_budget.
  apply isFloat_min0_true in H. rewrite H. reflexivity.
Qed.

Lemma sumAllocations_injected (a : Allocations) (newBudget : Qc) :
  sumAllocations
    (mkAllocations
       (essentials a + newBudget * Q2Qc 0.5)
       (savings a + newBudget * Q2Qc 0.2)
       (selfInvestment a + newBudget * Q2Qc 0.15)
       (charity a + newBudget * Q2Qc 0.05)
       (emergency a + newBudget * Q2Qc 0.1))
  = sumAllocations a + newBudget.
Proof.
  rewrite !sumAllocations_unfold.
  cbn [essentials savings selfInvestment charity emergency].
  transitivity
    (essentials a + savings a + selfInvestment a + charity a + emergency a
     + newBudget * (Q2Qc 0.5 + Q2Qc 0.2 + Q2Qc 0.15 + Q2Qc 0.05 + Q2Qc 0.1)).
  - ring.
  - rewrite weights_total. ring.
Qed.

(** C6, as the handler has it.  [POST /api/initial-budget] refuses a negative
    amount with a validation error; every amount from zero up is accepted
    ([isFloat({ min: 0 })]), adds the amount to [initialBudget] and adds to
    the balances the amount times 0.50, 0.20, 0.15, 0.05 and 0.10 (so their
    sum grows by the amount). *)
Theorem post_initial_budget_spec (user : User) (newBudget : Qc) :
  (newBudget < 0 → post_initial_budget user newBudget = Refused 400 VALIDATION_ERROR)
  ∧ (0 ≤ newBudget →
     ∃ user',
       post_initial_budget user newBudget = Saved user'
       ∧ initialBudget user' = initialBudget user + newBudget
       ∧ essentials (allocations user')
         = essentials (allocations user) + newBudget * Q2Qc 0.5
       ∧ savings (allocations user')
         = savings (allocations user) + newBudget * Q2Qc 0.2
       ∧ selfInvestment (allocations user')
         = selfInvestment (allocations user) + newBudget * Q2Qc 0.15
       ∧ charity (allocations user')
         = charity (allocations user) + newBudget * Q2Qc 0.05
       ∧ emergency (allocations user')
         = emergency (allocations user) + newBudget * Q2Qc 0.1
       ∧ sumAllocations (allocations user')
         = sumAllocations (allocations user) + newBudget
       ∧ expenses user' = expenses user
       ∧ investmentHistory user' = investmentHistory user).
Proof.
  split; intros H.
  - unfold post_initial_budget. apply isFloat_min0_false in H. rewrite H. reflexivity.
  - eexists. split; [apply post_initial_budget_accepted, H|].
    cbn [initialBudget allocations expenses investmentHistory
         essentials savings selfInvestment charity emergency].
    repeat split. apply sumAllocations_injected.
Qed.

Lemma post_initial_budget_spec_witness :
  post_initial_budget newUser (- (1)) = Refused 400 VALIDATION_ERROR
  ∧ ∃ user',
      post_initial_budget newUser (Q2Qc 1000000) = Saved user'
      ∧ initialBudget user' = initialBudget newUser + Q2Qc 1000000
      ∧ essentials (allocations user')
        = essentials (allocations newUser) + Q2Qc 1000000 * Q2Qc 0.5
      ∧ savings (allocations user')
        = savings (allocations newUser) + Q2Qc 1000000 * Q2Qc 0.2
      ∧ selfInvestment (allocations user')
        = selfInvestment (allocations newUser) + Q2Qc 1000000 * Q2Qc 0.15
      ∧ charity (allocations user')
        = charity (allocations newUser) + Q2Qc 1000000 * Q2Qc 0.05
      ∧ emergency (allocations user')
        = emergency (allocations newUser) + Q2Qc 1000000 * Q2Qc 0.1
      ∧ sumAllocations (allocations user')
        = sumAllocations (allocations newUser) + Q2Qc 1000000
      ∧ expenses user' = expenses newUser
      ∧ investmentHistory user' = investmentHistory newUser.
Proof.
  split.
  - apply (proj1 (post_initial_budget_spec newUser (- (1)))). reflexivity.
  - apply (proj2 (post_initial_budget_spec newUser (Q2Qc 1000000))).
    apply isFloat_min0_true. vm_compute. reflexivity.
Defined.

(** C6, as the specification words it, fails at zero: the amount is not
    positive, and the handler accepts it and saves the document (unchanged,
    since every term added is zero). *)
Lemma post_initial_budget_accepts_zero :
  (0 : Qc) ≤ 0 ∧ post_initial_budget newUser 0 = Saved newUser.
Proof.
  split; [apply Qcle_refl|].
  rewrite (post_initial_budget_accepted newUser 0 (Qcle_refl 0)).
  unfold newUser.
  cbn [initialBudget allocations expenses investmentHistory
       essentials savings selfInvestment charity emergency].
  f_equal; f_equal; ring.
Qed.

(** The scenario of the specification: one million injected into a new
    account. *)
Example post_initial_budget_million :
  post_initial_budget newUser (Q2Qc 1000000)
  = Saved (mkUser (Q2Qc 1000000) []
      (mkAllocations (Q2Qc 500000) (Q2Qc 200000) (Q2Qc 150000) (Q2Qc 50000) (Q2Qc 100000))
      []).
Proof.
  unfold post_initial_budget, newUser.
  replace (isFloat_min0 (Q2Qc 1000000)) with true by (vm_compute; reflexivity).
  cbn [negb initialBudget allocations expenses investmentHistory
       essentials savings selfInvestment charity emergency].
  repeat f_equal; apply Qc_is_canon; vm_compute; reflexivity.
Qed.

(** The scenario continued: 100,000 spent on "Tiêu dùng thiết yếu" leaves
    400,000 there and 900,000 in the budget. *)
Example post_expenses_scenario :
  let user := commit sampleUser (post_expenses "1/11/2026" sampleUser sampleExpense) in
  essentials (allocations user) = Q2Qc 400000 ∧ initialBudget user = Q2Qc 900000.
Proof. split; apply Qc_is_canon; vm_compute; reflexivity. Qed.

(** C9.  [POST /api/allocations] with five non-negative values puts exactly
    those values in place of the balances and leaves [initialBudget], the
    expenses and the investments as they were. *)
Theorem post_allocations_replaces (user : User) (body : Allocations) :
  allocationsNonNegative body →
  post_allocations user body
  = Saved (mkUser (initialBudget user) (expenses user) body (investmentHistory user)).
Proof.
  intros H. unfold post_allocations.
  pose proof (proj2 (isFloat_min0_true _) (H KEssentials)) as H1.
  pose proof (proj2 (isFloat_min0_true _) (H KSavings)) as H2.
  pose proof (proj2 (isFloat_min0_true _) (H KSelfInvestment)) as H3.
  pose proof (proj2 (isFloat_min0_true _) (H KCharity)) as H4.
  pose proof (proj2 (isFloat_min0_true _) (H KEmergency)) as H5.
  cbn [getAllocation] in H1, H2, H3, H4, H5.
  rewrite H1, H2, H3, H4, H5. reflexivity.
Qed.

Lemma post_allocations_replaces_witness :
  post_allocations newUser sampleAllocations
  = Saved (mkUser (initialBudget newUser) (expenses newUser) sampleAllocations
             (investmentHistory newUser)).
Proof.
  apply (post_allocations_replaces newUser sampleAllocations).
  intros k. apply isFloat_min0_true. destruct k; vm_compute; reflexivity.
Defined.

(** ** Conservation along a run *)






Lemma post_initial_budget_saved (user user' : User) (newBudget : Qc) :
  post_initial_budget user newBudget = Saved user' →
  initialBudget user' = initialBudget user + newBudget
  ∧ sumAllocations (allocations user') = sumAllocations (allocations user) + newBudget
  ∧ expenses user' = expenses user
  ∧ investmentHistory user' = investmentHistory user.
Proof.
  intros H.
  destruct (isFloat_min0 newBudget) eqn:Hvalid.
  - apply isFloat_min0_true in Hvalid.
    rewrite (post_initial_budget_accepted user newBudget Hvalid) in H.
    injection H as <-.
    cbn [initialBudget allocations expenses investmentHistory].
    repeat split. apply sumAllocations_injected.
  - unfold post_initial_budget in H. rewrite Hvalid in H. discriminate.
Qed.

Lemma delete_expenses_saved (user user' : User) (index : ParsedInt) :
  delete_expenses user index = Saved user' →
  ∃ z e,
    index = Int z ∧ (0 ≤ z)%Z
    ∧ expenses user !! Z.to_nat z = Some e
    ∧ user' = mkUser
        (initialBudget user + Expense.amount e)
        (delete (Z.to_nat z) (expenses user))
        (adjustAllocation (allocations user) (categoryKey (Expense.category e))
           (Expense.amount e))
        (investmentHistory user).
Proof.
  unfold delete_expenses. intros H.
  destruct index as [z|]; [|discriminate].
  destruct (indexOutOfRange _ _) eqn:Hin; [discriminate|].
  apply indexOutOfRange_false in Hin.
  rewrite elementAt_in_range, splice1_in_range in H by lia.
  destruct (expenses user !! Z.to_nat z) as [e|] eqn:He; [|discriminate].
  injection H as <-. exists z, e.
  split; [reflexivity|]. split; [lia|]. split; [assumption | reflexivity].
Qed.


(** A request about investments leaves the stored document as it was. *)
Lemma step_investment (today : string) (user : User) :
  (∀ body, step today user (RecordInvestment body) = user)
  ∧ (∀ index, step today user (DeleteInvestment index) = user).
Proof.
  unfold step. cbn [handle]. split.
  - intros body. pose proof (proj1 (post_investments_refused today user body)) as H.
    destruct (post_investments today user body); [discriminate | reflexivity].
  - intros index. pose proof (delete_investments_refused user index) as H.
    destruct (delete_investments user index); [discriminate | reflexivity].
Qed.






(** ** Non-negative balances *)

(** A refusal stores nothing. *)
Lemma refused_leaves_document (today : string) (user : User) (op : Op) :
  accepted (handle today user op) = false → step today user op = user.
Proof. unfold step. destruct (handle today user op); [discriminate | reflexivity]. Qed.

(** The expense handler never overdraws: it refuses an amount above the
    balance it debits, with the insufficient-allocation code. *)
Lemma post_expenses_refuses_overdraft
    (today : string) (user : User) (body : ExpenseBody.t) (k : AllocationKey) :
  categoryKey (ExpenseBody.category body) = Own k →
  getAllocation (allocations user) k < ExpenseBody.amount body →
  post_expenses today user body = Refused 400 VALIDATION_ERROR
  ∨ post_expenses today user body = Refused 400 INSUFFICIENT_ALLOCATION.
Proof.
  intros Hkey Hover. unfold post_expenses.
  destruct (negb _); [left; reflexivity|]. right.
  rewrite Hkey. cbn [exceedsAllocation].
  rewrite (proj2 (js_gt_true _ _) Hover). reflexivity.
Qed.

Lemma post_expenses_keeps_nonNegative
    (today : string) (user user' : User) (body : ExpenseBody.t) :
  allocationsNonNegative (allocations user) →
  post_expenses today user body = Saved user' →
  allocationsNonNegative (allocations user').
Proof.
  intros Hnonneg H. apply post_expenses_saved in H as (_ & _ & Hfits & ->).
  cbn [allocations]. intros k'.
  destruct (categoryKey (ExpenseBody.category body)) as [k| |];
    cbn [adjustAllocation]; try apply Hnonneg.
  cbn [exceedsAllocation] in Hfits. apply js_gt_false in Hfits.
  destruct (decide (k = k')) as [<-|Hne].
  - rewrite getAllocation_set_same.
    apply Qcle_minus_iff in Hfits. exact Hfits.
  - rewrite getAllocation_set_other by assumption. apply Hnonneg.
Qed.

(** Every operation but the recording of an investment keeps the balances
    (and the amounts on file) non-negative. *)
Lemma other_operations_keep_nonNegative (today : string) (user : User) (op : Op) :
  allocationsNonNegative (allocations user) →
  amountsNonNegative user →
  isRecordInvestment op = false →
  allocationsNonNegative (allocations (step today user op))
  ∧ amountsNonNegative (step today user op).
Proof.
  intros Hnonneg Hexpenses Hop. unfold amountsNonNegative in *.
  destruct op as [newBudget|body|index|body|index]; try discriminate;
    try (rewrite (proj2 (step_investment today user)); split; assumption);
    unfold step; cbn [handle];
    match goal with |- context [commit user ?o] => destruct o as [user'|] eqn:H end;
    cbn [commit]; try (split; assumption).
  - destruct (isFloat_min0 newBudget) eqn:Hvalid.
    + apply isFloat_min0_true in Hvalid.
      rewrite (post_initial_budget_accepted user newBudget Hvalid) in H.
      injection H as <-. split; [|assumption].
      cbn [allocations]. intros k.
      assert (Hweight : ∀ w, 0 ≤ w → 0 ≤ newBudget * w)
        by (intros w Hw; apply Qcmult_nonneg_nonneg; assumption).
      destruct k; cbn [getAllocation essentials savings selfInvestment charity emergency];
        (apply Qcplus_nonneg_nonneg;
         [ first [apply (Hnonneg KEssentials) | apply (Hnonneg KSavings)
                 | apply (Hnonneg KSelfInvestment) | apply (Hnonneg KCharity)
                 | apply (Hnonneg KEmergency)]
         | apply Hweight; apply isFloat_min0_true; vm_compute; reflexivity ]).
    + unfold post_initial_budget in H. rewrite Hvalid in H. discriminate.
  - split; [exact (post_expenses_keeps_nonNegative today user user' body Hnonneg H)|].
    apply post_expenses_saved in H as (Hamount & _ & _ & ->).
    cbn [expenses].
    apply Forall_app. split; [assumption|]. apply Forall_singleton. exact Hamount.
  - apply delete_expenses_saved in H as (z & e & -> & Hz & He & ->).
    pose proof (Forall_lookup_1 _ _ _ _ Hexpenses He) as Hamount. cbn beta in Hamount.
    split; [|apply Forall_delete; assumption].
    cbn [allocations]. intros k'.
    destruct (categoryKey (Expense.category e)) as [k| |];
      cbn [adjustAllocation]; try apply Hnonneg.
    destruct (decide (k = k')) as [<-|Hne].
    + rewrite getAllocation_set_same. apply Qcplus_nonneg_nonneg; [apply Hnonneg | exact Hamount].
    + rewrite getAllocation_set_other by assumption. apply Hnonneg.
Qed.

(** With the requests for investments, which store nothing: every sequence
    of the five operations keeps the balances non-negative. *)
Lemma run_keeps_nonNegative (today : string) (ops : list Op) (user : User) :
  allocationsNonNegative (allocations user) →
  amountsNonNegative user →
  allocationsNonNegative (allocations (run today ops user))
  ∧ amountsNonNegative (run today ops user).
Proof.
  revert user. induction ops as [|op ops IH]; intros user Hnonneg Hamounts.
  - split; assumption.
  - assert (Hstep : allocationsNonNegative (allocations (step today user op))
                    ∧ amountsNonNegative (step today user op)).
    { destruct (isRecordInvestment op) eqn:Hop.
      - destruct op; try discriminate.
        rewrite (proj1 (step_investment today user)). split; assumption.
      - exact (other_operations_keep_nonNegative today user op Hnonneg Hamounts Hop). }
    destruct Hstep as [Hnonneg' Hamounts'].
    exact (IH (step today user op) Hnonneg' Hamounts').
Qed.


(** ** The investment list stays empty *)

Lemma step_keeps_investmentHistory (today : string) (user : User) (op : Op) :
  investmentHistory (step today user op) = investmentHistory user.
Proof.
  destruct op as [newBudget|body|index|body|index];
    try (rewrite ?(proj1 (step_investment today user)),
                 ?(proj2 (step_investment today user)); reflexivity);
    unfold step; cbn [handle];
    match goal with |- context [commit user ?o] => destruct o as [user'|] eqn:H end;
    cbn [commit]; try reflexivity.
  - apply post_initial_budget_saved in H as (_ & _ & _ & Hlist). exact Hlist.
  - apply post_expenses_saved in H as (_ & _ & _ & ->). reflexivity.
  - apply delete_expenses_saved in H as (z & e & _ & _ & _ & ->). reflexivity.
Qed.

Lemma run_keeps_investmentHistory (today : string) (ops : list Op) (user : User) :
  investmentHistory (run today ops user) = investmentHistory user.
Proof.
  revert user. induction ops as [|op ops IH]; intros user; [reflexivity|].
  unfold run in *. cbn [fold_left].
  rewrite IH. apply step_keeps_investmentHistory.
Qed.




(** ** The price handler *)







(** The run of the handler behind the witness: three requests to CoinGecko
    with the back-off after each 429 but the last, three to CoinMarketCap,
    one to Binance, and nothing written to the cache. *)
Example get_bitcoin_price_cold :
  get_bitcoin_price parseDecimal coldEnvironment
  = (mkPriceResponse 200 (Some (Num fallbackPrice)) (Some fallbackWarning) None,
     [AxiosGet CoinGecko; Wait 1000; AxiosGet CoinGecko; Wait 2000; AxiosGet CoinGecko;
      AxiosGet CoinMarketCap; AxiosGet CoinMarketCap; AxiosGet CoinMarketCap;
      AxiosGet Binance]).
Proof. reflexivity. Qed.




(** ** Edges of the handlers *)

(** A path segment that is not a number passes the index guard ([NaN]
    compares false both ways); reading the missing element throws, the
    handler answers 500 and stores nothing. *)
Lemma delete_investments_NaN (user : User) :
  delete_investments user NaNInt = Refused 500 SERVER_ERROR.
Proof. reflexivity. Qed.

Lemma delete_expenses_NaN (user : User) :
  delete_expenses user NaNInt = Refused 500 SERVER_ERROR.
Proof. reflexivity. Qed.

(** An expense filed under "constructor" is accepted: the budget pays for
    it and no balance does. *)
Example post_expenses_inherited_label :
  ∃ user',
    post_expenses "1/11/2026" sampleUser
      (ExpenseBody.mk (Q2Qc 100000) "constructor" "gạo" "chợ" None) = Saved user'
    ∧ allocations user' = allocations sampleUser
    ∧ initialBudget user' = initialBudget sampleUser - Q2Qc 100000.
Proof. eexists. split; [vm_compute; reflexivity|]. split; reflexivity. Qed.

(** ** The handlers of server.js for investments and price

    [server.js] itself has the earlier form of these handlers: the deletion
    of an investment changes the list only, and the price handler asks one
    source and answers 500 when that fails. *)

Lemma delete_investments_serverjs_keeps_allocations
    (user user' : User) (index : ParsedInt) :
  delete_investments_serverjs user index = Saved user' →
  allocations user' = allocations user.
Proof.
  unfold delete_investments_serverjs. intros H.
  destruct (indexOutOfRange _ _); [discriminate|].
  injection H as <-. reflexivity.
Qed.

Lemma get_bitcoin_price_serverjs_down (env : Environment) :
  sourceDown env CoinGecko →
  status (fst (get_bitcoin_price_serverjs env)) = 500%nat
  ∧ price (fst (get_bitcoin_price_serverjs env)) = None.
Proof.
  intros Hdown. unfold get_bitcoin_price_serverjs.
  specialize (Hdown 0%nat).
  destruct (axiosGet env CoinGecko 0) as [[p| |]|e]; cbn [attemptFails] in Hdown;
    try discriminate; split; reflexivity.
Qed.

(** * Further properties of the handlers *)

(** ** Expenses on file *)

(** X2.  A deletion accepted at index [z] shortens the expense list by one,
    leaves the entries before [z] where they were and moves every later
    entry one index down: the index of an expense is only good until the
    next deletion. *)
Theorem delete_expenses_shifts (user user' : User) (z : Z) :
  delete_expenses user (Int z) = Saved user' →
  S (length (expenses user')) = length (expenses user)
  ∧ ∀ j : nat,
      ((j < Z.to_nat z)%nat → expenses user' !! j = expenses user !! j)
      ∧ ((Z.to_nat z ≤ j)%nat → expenses user' !! j = expenses user !! S j).
Proof.
  intros H. apply delete_expenses_saved in H as (z' & e & Hz' & Hz & He & ->).
  injection Hz' as <-. cbn [expenses]. split.
  - rewrite length_delete by (rewrite He; eauto).
    apply lookup_lt_Some in He. lia.
  - intros j. split; intros Hj.
    + apply list_lookup_delete_lt. exact Hj.
    + apply list_lookup_delete_ge. exact Hj.
Qed.

Lemma delete_expenses_shifts_witness :
  let user := run "1/11/2026" [RecordExpense sampleExpense; RecordExpense exactExpense] sampleUser in
  let user' := commit user (delete_expenses user (Int 0)) in
  S (length (expenses user')) = length (expenses user)
  ∧ ∀ j : nat,
      ((j < Z.to_nat 0)%nat → expenses user' !! j = expenses user !! j)
      ∧ ((Z.to_nat 0 ≤ j)%nat → expenses user' !! j = expenses user !! S j).
Proof.
  intros user user'.
  apply (delete_expenses_shifts user user' 0). vm_compute. reflexivity.
Defined.

(** ** Category labels *)

Lemma isInherited_categoryKey (category : string) :
  isInherited category = true → categoryKey category = Inherited.
Proof.
  unfold isInherited. intros H.
  apply existsb_exists in H as (member & Hin & Heq).
  apply String.eqb_eq in Heq. subst member.
  unfold objectPrototypeMembers in Hin. cbn [In] in Hin.
  repeat (destruct Hin as [<-|Hin]; [reflexivity|]). contradiction.
Qed.

(** X3.  The lookup of the two expense handlers resolves a label to an
    allocation key exactly when it is the label of that key (five labels,
    five different keys), and to [undefined] exactly when it is none of the
    five and names no member of [Object.prototype]. *)
Theorem categoryKey_resolves (label : string) :
  (∀ k, categoryKey label = Own k ↔ label = labelOf k)
  ∧ (categoryKey label = Undefined
     ↔ (∀ k, label ≠ labelOf k) ∧ isInherited label = false).
Proof.
  assert (Hown : ∀ k, categoryKey label = Own k ↔ label = labelOf k).
  { intros k. split.
    - unfold categoryKey.
      repeat match goal with
             | |- context [String.eqb label ?s] =>
               destruct (String.eqb_spec label s) as [->|_];
                 [intros [= <-]; reflexivity|]
             end.
      destruct (isInherited label); intros H; discriminate H.
    - intros ->. destruct k; reflexivity. }
  split; [exact Hown|]. split.
  - intros Hundefined. split.
    + intros k Hk. apply Hown in Hk. congruence.
    + destruct (isInherited label) eqn:Hinherited; [|reflexivity].
      apply isInherited_categoryKey in Hinherited. congruence.
  - intros [Hnone Hinherited]. unfold categoryKey.
    destruct (String.eqb_spec label "Tiêu dùng thiết yếu") as [H|_];
      [destruct (Hnone KEssentials H)|].
    destruct (String.eqb_spec label "Tiết kiệm bắt buộc") as [H|_];
      [destruct (Hnone KSavings H)|].
    destruct (String.eqb_spec label "Đầu tư bản thân") as [H|_];
      [destruct (Hnone KSelfInvestment H)|].
    destruct (String.eqb_spec label "Từ thiện") as [H|_];
      [destruct (Hnone KCharity H)|].
    destruct (String.eqb_spec label "Dự phòng linh hoạt") as [H|_];
      [destruct (Hnone KEmergency H)|].
    rewrite Hinherited. reflexivity.
Qed.

(** X4.  An expense filed under a label that names a member of
    [Object.prototype] ("constructor", "toString", ...) passes both guards
    whatever its amount: it is stored and taken from [initialBudget], and no
    allocation balance is compared with it or changed by it. *)
Theorem post_expenses_prototype_label
    (today : string) (user : User) (body : ExpenseBody.t) :
  isInherited (ExpenseBody.category body) = true →
  0 ≤ ExpenseBody.amount body →
  ExpenseBody.purpose body ≠ EmptyString →
  ExpenseBody.location body ≠ EmptyString →
  post_expenses today user body
  = Saved (mkUser
      (initialBudget user - ExpenseBody.amount body)
      (expenses user ++
         [Expense.mk (ExpenseBody.amount body) (ExpenseBody.category body)
            (dateOrToday today (ExpenseBody.date body))
            (ExpenseBody.purpose body) (ExpenseBody.location body)])
      (allocations user)
      (investmentHistory user)).
Proof.
  intros Hinherited Hamount Hpurpose Hlocation.
  pose proof (isInherited_categoryKey _ Hinherited) as Hkey.
  assert (Hcategory : notEmpty (ExpenseBody.category body) = true).
  { apply notEmpty_true. intros Hempty. rewrite Hempty in Hkey. discriminate. }
  apply isFloat_min0_true in Hamount. apply notEmpty_true in Hpurpose, Hlocation.
  unfold post_expenses.
  rewrite Hamount, Hcategory, Hpurpose, Hlocation, Hkey. reflexivity.
Qed.

Lemma post_expenses_prototype_label_witness :
  post_expenses "1/11/2026" newUser
    (ExpenseBody.mk (Q2Qc 5000000) "toString" "xe máy" "Huế" None)
  = Saved (mkUser
      (initialBudget newUser - Q2Qc 5000000)
      (expenses newUser ++
         [Expense.mk (Q2Qc 5000000) "toString" "1/11/2026" "xe máy" "Huế"])
      (allocations newUser)
      (investmentHistory newUser)).
Proof.
  apply (post_expenses_prototype_label "1/11/2026" newUser
           (ExpenseBody.mk (Q2Qc 5000000) "toString" "xe máy" "Huế" None)).
  - reflexivity.
  - apply isFloat_min0_true. vm_compute. reflexivity.
  - discriminate.
  - discriminate.
Defined.

(** ** Balances that stay non-negative *)

(** X5.  As long as no investment is recorded, every sequence of
    injections, expenses and deletions (of expenses or investments) keeps
    all five balances non-negative, from any document whose balances and
    filed amounts are non-negative. *)
Theorem runs_without_investments_keep_nonNegative
    (today : string) (ops : list Op) (user : User) :
  noRecordInvestment ops = true →
  allocationsNonNegative (allocations user) →
  amountsNonNegative user →
  allocationsNonNegative (allocations (run today ops user))
  ∧ amountsNonNegative (run today ops user).
Proof.
  revert user. induction ops as [|op ops IH]; intros user Hops Hnonneg Hamounts.
  - split; assumption.
  - cbn [noRecordInvestment forallb] in Hops.
    apply andb_true_iff in Hops as [Hop Hops]. apply negb_true_iff in Hop.
    destruct (other_operations_keep_nonNegative today user op Hnonneg Hamounts Hop)
      as [Hnonneg' Hamounts'].
    exact (IH (step today user op) Hops Hnonneg' Hamounts').
Qed.

Lemma runs_without_investments_keep_nonNegative_witness :
  let ops := [InjectBudget (Q2Qc 1000000); RecordExpense sampleExpense;
              RecordExpense exactExpense; DeleteExpense (Int 0)] in
  allocationsNonNegative (allocations (run "1/11/2026" ops newUser))
  ∧ amountsNonNegative (run "1/11/2026" ops newUser).
Proof.
  intros ops.
  apply (runs_without_investments_keep_nonNegative "1/11/2026" ops newUser).
  - reflexivity.
  - intros k. apply isFloat_min0_true. destruct k; vm_compute; reflexivity.
  - apply Forall_nil_2.
Defined.

Lemma step_serverjs_keeps_nonNegative (today : string) (user : User) (op : Op) :
  allocationsNonNegative (allocations user) →
  amountsNonNegative user →
  allocationsNonNegative (allocations (step_serverjs today user op))
  ∧ amountsNonNegative (step_serverjs today user op).
Proof.
  intros Hnonneg Hamounts.
  destruct op as [newBudget|body|index|body|index].
  - exact (other_operations_keep_nonNegative today user (InjectBudget newBudget)
             Hnonneg Hamounts eq_refl).
  - exact (other_operations_keep_nonNegative today user (RecordExpense body)
             Hnonneg Hamounts eq_refl).
  - exact (other_operations_keep_nonNegative today user (DeleteExpense index)
             Hnonneg Hamounts eq_refl).
  - unfold step_serverjs. cbn [handle_serverjs].
    pose proof (proj2 (post_investments_refused today user body)) as H.
    destruct (post_investments_serverjs today user body); [discriminate|].
    cbn [commit]. split; assumption.
  - unfold step_serverjs. cbn [handle_serverjs]. unfold delete_investments_serverjs.
    destruct (indexOutOfRange index _); cbn [commit]; split; assumption.
Qed.

(** X6.  With the investment handlers of [server.js], which have no line
    that touches the allocations, every sequence of the five operations
    keeps all five balances non-negative. *)
Theorem run_serverjs_keeps_nonNegative
    (today : string) (ops : list Op) (user : User) :
  allocationsNonNegative (allocations user) →
  amountsNonNegative user →
  allocationsNonNegative (allocations (run_serverjs today ops user))
  ∧ amountsNonNegative (run_serverjs today ops user).
Proof.
  revert user. induction ops as [|op ops IH]; intros user Hnonneg Hamounts.
  - split; assumption.
  - destruct (step_serverjs_keeps_nonNegative today user op Hnonneg Hamounts)
      as [Hnonneg' Hamounts'].
    exact (IH (step_serverjs today user op) Hnonneg' Hamounts').
Qed.

Lemma run_serverjs_keeps_nonNegative_witness :
  let ops := [InjectBudget (Q2Qc 1000000);
              RecordExpense
                (ExpenseBody.mk (Q2Qc 150000) "Đầu tư bản thân" "khóa học" "Hà Nội" None);
              RecordInvestment sampleInvestment] in
  allocationsNonNegative (allocations (run_serverjs "1/11/2026" ops newUser))
  ∧ amountsNonNegative (run_serverjs "1/11/2026" ops newUser).
Proof.
  intros ops.
  apply (run_serverjs_keeps_nonNegative "1/11/2026" ops newUser).
  - intros k. apply isFloat_min0_true. destruct k; vm_compute; reflexivity.
  - apply Forall_nil_2.
Defined.

(** ** The retry loop *)

Lemma upstreamCalls_app (xs ys : list Event) :
  upstreamCalls (xs ++ ys) = upstreamCalls xs ++ upstreamCalls ys.
Proof. unfold upstreamCalls. apply omap_app. Qed.

Lemma waits_app (xs ys : list Event) : waits (xs ++ ys) = waits xs ++ waits ys.
Proof. unfold waits. apply omap_app. Qed.

Lemma cacheWrites_app (xs ys : list Event) :
  cacheWrites (xs ++ ys) = cacheWrites xs ++ cacheWrites ys.
Proof. unfold cacheWrites. apply omap_app. Qed.

Lemma totalWait_app (xs ys : list Event) :
  totalWait (xs ++ ys) = (totalWait xs + totalWait ys)%nat.
Proof.
  unfold totalWait. rewrite waits_app.
  induction (waits xs) as [|w ws IH]; cbn [app fold_right]; [reflexivity|].
  rewrite IH. lia.
Qed.

(** The events of one iteration: the request, and the back-off if the
    rejection was a 429. *)
Lemma upstreamCalls_iteration (source : Source) (error : AxiosError) (backoff i : nat)
    (events : list Event) :
  upstreamCalls
    (AxiosGet source :: (if is429 error then [Wait (backoff * (i + 1))] else []) ++ events)
  = source :: upstreamCalls events.
Proof. destruct (is429 error); reflexivity. Qed.

Lemma cacheWrites_iteration (source : Source) (error : AxiosError) (backoff i : nat)
    (events : list Event) :
  cacheWrites
    (AxiosGet source :: (if is429 error then [Wait (backoff * (i + 1))] else []) ++ events)
  = cacheWrites events.
Proof. destruct (is429 error); reflexivity. Qed.

Lemma totalWait_iteration (source : Source) (error : AxiosError) (backoff i : nat)
    (events : list Event) :
  totalWait
    (AxiosGet source :: (if is429 error then [Wait (backoff * (i + 1))] else []) ++ events)
  = ((if is429 error then backoff * (i + 1) else 0) + totalWait events)%nat.
Proof. destruct (is429 error); reflexivity. Qed.

Lemma fetchLoop_calls (source : Source) (answer : nat → AxiosResult)
    (retries backoff i remaining : nat) :
  ∃ n, (n ≤ remaining)%nat
       ∧ upstreamCalls (snd (fetchLoop source answer retries backoff i remaining))
         = replicate n source
       ∧ cacheWrites (snd (fetchLoop source answer retries backoff i remaining)) = [].
Proof.
  revert i. induction remaining as [|remaining IH]; intros i; cbn [fetchLoop].
  - exists 0%nat. split; [lia|]. split; reflexivity.
  - destruct (answer i) as [data|error].
    + exists 1%nat. split; [lia|]. split; reflexivity.
    + destruct (i =? retries - 1)%nat.
      * exists 1%nat. split; [lia|]. split; reflexivity.
      * destruct (IH (S i)) as (n & Hn & Hcalls & Hwrites).
        destruct (fetchLoop source answer retries backoff (S i) remaining) as [result events].
        cbn [snd] in *. exists (S n).
        rewrite upstreamCalls_iteration, cacheWrites_iteration, Hcalls, Hwrites.
        split; [lia|]. split; reflexivity.
Qed.

(** X9.  [fetchWithRetry] sends at most [retries] requests, all of them to
    the one URL it was given, and writes nothing to the cache. *)
Theorem fetchWithRetry_bounded (source : Source) (answer : nat → AxiosResult)
    (retries backoff : nat) :
  ∃ n, (n ≤ retries)%nat
       ∧ upstreamCalls (snd (fetchWithRetry source answer retries backoff))
         = replicate n source
       ∧ cacheWrites (snd (fetchWithRetry source answer retries backoff)) = [].
Proof. apply fetchLoop_calls. Qed.

Lemma fetchLoop_exhausted (source : Source) (answer : nat → AxiosResult)
    (retries backoff i remaining : nat) (last : AxiosError) :
  (i + remaining = retries)%nat →
  (0 < remaining)%nat →
  rejectedBetween answer i retries →
  answer (retries - 1)%nat = Rejected last →
  fst (fetchLoop source answer retries backoff i remaining) = Threw last
  ∧ upstreamCalls (snd (fetchLoop source answer retries backoff i remaining))
    = replicate remaining source.
Proof.
  revert i. induction remaining as [|remaining IH]; intros i Hsum Hpos Hrejected Hlast;
    [lia|].
  cbn [fetchLoop].
  destruct (Hrejected i) as [error Herror]; [lia|]. rewrite Herror.
  destruct (Nat.eqb_spec i (retries - 1)) as [Heq|Hne].
  - assert (remaining = 0%nat) by lia. subst remaining.
    rewrite Heq in Herror. rewrite Herror in Hlast. injection Hlast as ->.
    split; reflexivity.
  - destruct (IH (S i)) as [Hresult Hcalls]; try assumption; try lia.
    { intros k Hk. apply Hrejected. lia. }
    destruct (fetchLoop source answer retries backoff (S i) remaining) as [result events].
    cbn [fst snd] in *. split; [exact Hresult|].
    rewrite upstreamCalls_iteration, Hcalls. reflexivity.
Qed.

(** X10.  When every one of the [retries] attempts is rejected,
    [fetchWithRetry] throws the error of the last attempt, after exactly
    [retries] requests. *)
Theorem fetchWithRetry_exhausted (source : Source) (answer : nat → AxiosResult)
    (retries backoff : nat) (last : AxiosError) :
  (0 < retries)%nat →
  rejectedBetween answer 0 retries →
  answer (retries - 1)%nat = Rejected last →
  fst (fetchWithRetry source answer retries backoff) = Threw last
  ∧ upstreamCalls (snd (fetchWithRetry source answer retries backoff))
    = replicate retries source.
Proof.
  intros Hpos Hrejected Hlast.
  apply fetchLoop_exhausted; try assumption. lia.
Qed.

Lemma fetchWithRetry_exhausted_witness :
  fst (fetchWithRetry CoinGecko (allDown CoinGecko) 3 1000) = Threw (HttpStatus 429)
  ∧ upstreamCalls (snd (fetchWithRetry CoinGecko (allDown CoinGecko) 3 1000))
    = replicate 3 CoinGecko.
Proof.
  apply (fetchWithRetry_exhausted CoinGecko (allDown CoinGecko) 3 1000 (HttpStatus 429)).
  - lia.
  - intros i _. exists (HttpStatus 429). reflexivity.
  - reflexivity.
Defined.

Lemma fetchLoop_first_success (source : Source) (answer : nat → AxiosResult)
    (retries backoff i remaining j : nat) (data : Payload) :
  (i + remaining = retries)%nat →
  (i ≤ j < retries)%nat →
  rejectedBetween answer i j →
  answer j = Resolved data →
  fst (fetchLoop source answer retries backoff i remaining) = Returned data
  ∧ upstreamCalls (snd (fetchLoop source answer retries backoff i remaining))
    = replicate (S j - i) source
  ∧ cacheWrites (snd (fetchLoop source answer retries backoff i remaining)) = [].
Proof.
  revert i. induction remaining as [|remaining IH]; intros i Hsum Hj Hrejected Hdata;
    [lia|].
  cbn [fetchLoop].
  destruct (Nat.eq_dec i j) as [->|Hne].
  - rewrite Hdata. replace (S j - j)%nat with 1%nat by lia. repeat split.
  - destruct (Hrejected i) as [error Herror]; [lia|]. rewrite Herror.
    destruct (Nat.eqb_spec i (retries - 1)) as [Heq|_]; [lia|].
    destruct (IH (S i)) as (Hresult & Hcalls & Hwrites); try assumption; try lia.
    { intros k Hk. apply Hrejected. lia. }
    destruct (fetchLoop source answer retries backoff (S i) remaining) as [result events].
    cbn [fst snd] in *. split; [exact Hresult|].
    rewrite upstreamCalls_iteration, cacheWrites_iteration, Hcalls.
    split; [|exact Hwrites].
    replace (S j - i)%nat with (S (S j - S i)) by lia. reflexivity.
Qed.

(** X11.  [fetchWithRetry] returns the body of the first attempt that
    resolves, provided it is among the first [retries], and sends no request
    after it. *)
Theorem fetchWithRetry_first_success (source : Source) (answer : nat → AxiosResult)
    (retries backoff j : nat) (data : Payload) :
  (j < retries)%nat →
  rejectedBetween answer 0 j →
  answer j = Resolved data →
  fst (fetchWithRetry source answer retries backoff) = Returned data
  ∧ upstreamCalls (snd (fetchWithRetry source answer retries backoff))
    = replicate (S j) source.
Proof.
  intros Hj Hrejected Hdata.
  destruct (fetchLoop_first_success source answer retries backoff 0 retries j data)
    as (Hresult & Hcalls & _); try assumption; try lia.
  split; [exact Hresult|].
  unfold fetchWithRetry. rewrite Hcalls. f_equal; lia.
Qed.

Lemma fetchWithRetry_first_success_witness :
  let answer := fun i : nat =>
    if (i <? 2)%nat then Rejected NoResponse else Resolved (Quote (Q2Qc 65000)) in
  fst (fetchWithRetry Binance answer 3 1000) = Returned (Quote (Q2Qc 65000))
  ∧ upstreamCalls (snd (fetchWithRetry Binance answer 3 1000)) = replicate 3 Binance.
Proof.
  intros answer.
  apply (fetchWithRetry_first_success Binance answer 3 1000 2 (Quote (Q2Qc 65000))).
  - lia.
  - intros i Hi. exists NoResponse. unfold answer.
    destruct (Nat.ltb_spec i 2); [reflexivity | lia].
  - reflexivity.
Defined.

Lemma fetchLoop_wait_bound (source : Source) (answer : nat → AxiosResult)
    (retries backoff i remaining : nat) :
  (i + remaining = retries)%nat →
  (0 < remaining)%nat →
  (2 * totalWait (snd (fetchLoop source answer retries backoff i remaining))
   + backoff * (i * (i + 1))
   ≤ backoff * (retries * (retries - 1)))%nat.
Proof.
  revert i. induction remaining as [|remaining IH]; intros i Hsum Hpos; [lia|].
  cbn [fetchLoop].
  assert (Hbase : (backoff * (i * (i + 1)) ≤ backoff * (retries * (retries - 1)))%nat).
  { apply Nat.mul_le_mono_l. nia. }
  destruct (answer i) as [data|error].
  - cbn [snd totalWait waits omap fold_right]. exact Hbase.
  - destruct (Nat.eqb_spec i (retries - 1)) as [Heq|Hne].
    + cbn [snd totalWait waits omap fold_right]. exact Hbase.
    + specialize (IH (S i)).
      destruct (fetchLoop source answer retries backoff (S i) remaining) as [result events].
      cbn [snd] in *. rewrite totalWait_iteration.
      assert (IH' : (2 * totalWait events + backoff * (S i * (S i + 1))
                     ≤ backoff * (retries * (retries - 1)))%nat) by (apply IH; lia).
      destruct (is429 error); nia.
Qed.

Lemma fetchLoop_no_429_no_wait (source : Source) (answer : nat → AxiosResult)
    (retries backoff i remaining : nat) :
  (∀ k error, answer k = Rejected error → is429 error = false) →
  waits (snd (fetchLoop source answer retries backoff i remaining)) = [].
Proof.
  intros Hno. revert i. induction remaining as [|remaining IH]; intros i; cbn [fetchLoop].
  - reflexivity.
  - destruct (answer i) as [data|error] eqn:Hanswer; [reflexivity|].
    destruct (i =? retries - 1)%nat; [reflexivity|].
    specialize (IH (S i)).
    destruct (fetchLoop source answer retries backoff (S i) remaining) as [result events].
    cbn [snd] in *. rewrite (Hno i error Hanswer). exact IH.
Qed.

(** X12.  All back-offs of one call of [fetchWithRetry] add up to at most
    [backoff * retries * (retries - 1) / 2] (3000 ms with the defaults, jitter
    apart).  When no rejection is a 429 it retries at once, with no back-off
    at all. *)
Theorem fetchWithRetry_backoff (source : Source) (answer : nat → AxiosResult)
    (retries backoff : nat) :
  (2 * totalWait (snd (fetchWithRetry source answer retries backoff))
   ≤ backoff * (retries * (retries - 1)))%nat
  ∧ ((∀ k error, answer k = Rejected error → is429 error = false) →
     waits (snd (fetchWithRetry source answer retries backoff)) = []).
Proof.
  split.
  - unfold fetchWithRetry. destruct retries as [|retries]; [cbn; lia|].
    pose proof (fetchLoop_wait_bound source answer (S retries) backoff 0 (S retries)) as H.
    lia.
  - apply fetchLoop_no_429_no_wait.
Qed.

Lemma fetchWithRetry_backoff_witness :
  (2 * totalWait (snd (fetchWithRetry CoinMarketCap (allDown CoinMarketCap) 3 1000))
   ≤ 1000 * (3 * (3 - 1)))%nat
  ∧ waits (snd (fetchWithRetry CoinMarketCap (allDown CoinMarketCap) 3 1000)) = [].
Proof.
  split.
  - apply (proj1 (fetchWithRetry_backoff CoinMarketCap (allDown CoinMarketCap) 3 1000)).
  - apply (proj2 (fetchWithRetry_backoff CoinMarketCap (allDown CoinMarketCap) 3 1000)).
    intros k error H. injection H as <-. reflexivity.
Defined.

(** ** The chain of price sources *)

Lemma upstreamCalls_writeThrough (env : Environment) (price : JsNumber) :
  upstreamCalls (writeThrough env price) = [].
Proof. unfold writeThrough. destruct (redisClient env); reflexivity. Qed.

Lemma cacheWrites_writeThrough (env : Environment) (price : JsNumber) :
  cacheWrites (writeThrough env price)
  = match redisClient env with
    | Some _ => [("bitcoin_price"%string, 300%nat, price)]
    | None => []
    end.
Proof. unfold writeThrough. destruct (redisClient env); reflexivity. Qed.

Lemma fetchWithRetry_bounded_calls_aux (env : Environment) (source : Source) :
  ∃ n, (n ≤ 3)%nat
       ∧ upstreamCalls (snd (fetchWithRetry source (axiosGet env source) 3 1000))
         = replicate n source
       ∧ cacheWrites (snd (fetchWithRetry source (axiosGet env source) 3 1000)) = [].
Proof. apply fetchLoop_calls. Qed.

(** One [try] block asks its own source at most three times; it writes the
    cache once, with the number it answers, and does not write when it
    answers no number or ends in its [catch]. *)
Lemma trySource_events (env : Environment) (source : Source) :
  (∃ n, (n ≤ 3)%nat ∧ upstreamCalls (snd (trySource env source)) = replicate n source)
  ∧ match fst (trySource env source) with
    | Answered (Some price) =>
      cacheWrites (snd (trySource env source))
      = match redisClient env with
        | Some _ => [("bitcoin_price"%string, 300%nat, price)]
        | None => []
        end
    | Answered None | Failed => cacheWrites (snd (trySource env source)) = []
    end.
Proof.
  unfold trySource.
  destruct (fetchWithRetry_bounded_calls_aux env source) as (n & Hn & Hcalls & Hwrites).
  destruct (fetchWithRetry source (axiosGet env source) 3 1000) as [result events].
  cbn [snd] in Hcalls, Hwrites.
  assert (Hwritten : ∀ price,
    (∃ n, (n ≤ 3)%nat
          ∧ upstreamCalls (events ++ writeThrough env price) = replicate n source)
    ∧ cacheWrites (events ++ writeThrough env price)
      = match redisClient env with
        | Some _ => [("bitcoin_price"%string, 300%nat, price)]
        | None => []
        end).
  { intros price. split.
    - exists n. split; [exact Hn|].
      rewrite upstreamCalls_app, upstreamCalls_writeThrough, app_nil_r. exact Hcalls.
    - rewrite cacheWrites_app, Hwrites, cacheWrites_writeThrough. reflexivity. }
  destruct result as [[price| |]|error|]; cbn [fst snd].
  - apply Hwritten.
  - destruct source; cbn [fst snd];
      first [apply Hwritten | split; [exists n; split; assumption | exact Hwrites]].
  - split; [exists n; split; assumption | exact Hwrites].
  - split; [exists n; split; assumption | exact Hwrites].
  - split; [exists n; split; assumption | exact Hwrites].
Qed.

Lemma replicate_length_le {A} (n : nat) (x : A) (l : list A) (bound : nat) :
  (n ≤ bound)%nat → l = replicate n x → (length l ≤ bound)%nat.
Proof. intros Hn ->. rewrite length_replicate. exact Hn. Qed.

Lemma replicate_not_in {A} (n : nat) (x y : A) (l : list A) :
  x ≠ y → l = replicate n x → ¬ In y l.
Proof.
  intros Hne ->. induction n as [|n IH]; cbn [replicate In]; [tauto|].
  intros [H|H]; [congruence | exact (IH H)].
Qed.

(** X13.  One price request sends at most nine upstream requests (three per
    source); without a CoinMarketCap API key it sends none to CoinMarketCap
    and at most six in all. *)
Theorem get_bitcoin_price_call_bound (parseFloat : string → JsNumber) (env : Environment) :
  let calls := upstreamCalls (snd (get_bitcoin_price parseFloat env)) in
  (length calls ≤ 9)%nat
  ∧ (truthy (CMC_API_KEY env) = false →
     ¬ In CoinMarketCap calls ∧ (length calls ≤ 6)%nat).
Proof.
  unfold get_bitcoin_price.
  destruct (cachedPrice env); [cbn; split; [lia | intros _; split; [tauto | lia]]|].
  destruct (trySource_events env CoinGecko) as [(n1 & Hn1 & H1) _].
  destruct (trySource_events env CoinMarketCap) as [(n2 & Hn2 & H2) _].
  destruct (trySource_events env Binance) as [(n3 & Hn3 & H3) _].
  destruct (trySource env CoinGecko) as [r1 events1].
  destruct (trySource env CoinMarketCap) as [r2 events2].
  destruct (trySource env Binance) as [r3 events3].
  cbn [snd] in H1, H2, H3.
  assert (Hnot1 : ¬ In CoinMarketCap (upstreamCalls events1))
    by (apply (replicate_not_in n1 CoinGecko); [discriminate | exact H1]).
  assert (Hnot3 : ¬ In CoinMarketCap (upstreamCalls events3))
    by (apply (replicate_not_in n3 Binance); [discriminate | exact H3]).
  pose proof (replicate_length_le _ _ _ 3 Hn1 H1) as L1.
  pose proof (replicate_length_le _ _ _ 3 Hn2 H2) as L2.
  pose proof (replicate_length_le _ _ _ 3 Hn3 H3) as L3.
  destruct r1 as [p1|]; cbn [snd].
  { split; [lia | intros _; split; [exact Hnot1 | lia]]. }
  destruct (truthy (CMC_API_KEY env)).
  - destruct r2 as [p2|]; cbn [snd].
    + rewrite upstreamCalls_app, length_app. split; [lia | discriminate].
    + destruct r3 as [p3|]; cbn [snd];
        rewrite !upstreamCalls_app, !length_app; (split; [lia | discriminate]).
  - destruct r3 as [p3|]; cbn [snd app];
      rewrite !upstreamCalls_app, !length_app;
      (split; [lia|]); intros _; (split; [|lia]);
      rewrite !in_app_iff; tauto.
Qed.

Lemma get_bitcoin_price_call_bound_witness :
  let env := mkEnvironment None None allDown in
  let calls := upstreamCalls (snd (get_bitcoin_price parseDecimal env)) in
  (length calls ≤ 9)%nat ∧ ¬ In CoinMarketCap calls ∧ (length calls ≤ 6)%nat.
Proof.
  intros env calls.
  destruct (get_bitcoin_price_call_bound parseDecimal env) as [Hnine Hsix].
  split; [exact Hnine|]. apply Hsix. reflexivity.
Defined.

(** X14.  On a cache miss, when CoinGecko's first resolving attempt (among
    its three) carries a price, the handler answers that price without a
    warning, asks no other source, and writes exactly that price to the
    cache under "bitcoin_price" for 300 seconds if there is a Redis client
    (nothing otherwise). *)
Theorem get_bitcoin_price_first_source_wins
    (parseFloat : string → JsNumber) (env : Environment) (j : nat) (p : Qc) :
  cachedPrice env = None →
  (j < 3)%nat →
  rejectedBetween (axiosGet env CoinGecko) 0 j →
  axiosGet env CoinGecko j = Resolved (Quote p) →
  fst (get_bitcoin_price parseFloat env) = mkPriceResponse 200 (Some (Num p)) None None
  ∧ upstreamCalls (snd (get_bitcoin_price parseFloat env)) = replicate (S j) CoinGecko
  ∧ cacheWrites (snd (get_bitcoin_price parseFloat env))
    = match redisClient env with
      | Some _ => [("bitcoin_price"%string, 300%nat, Num p)]
      | None => []
      end.
Proof.
  intros Hmiss Hj Hrejected Hquote.
  destruct (fetchLoop_first_success CoinGecko (axiosGet env CoinGecko) 3 1000 0 3 j (Quote p))
    as (Hresult & Hcalls & Hwrites); try assumption; try lia.
  unfold get_bitcoin_price, trySource, fetchWithRetry. rewrite Hmiss.
  destruct (fetchLoop CoinGecko (axiosGet env CoinGecko) 3 1000 0 3) as [result events].
  cbn [fst snd] in Hresult, Hcalls, Hwrites. subst result. cbn [fst snd].
  split; [reflexivity|]. split.
  - rewrite upstreamCalls_app, upstreamCalls_writeThrough, app_nil_r, Hcalls.
    f_equal; lia.
  - rewrite cacheWrites_app, Hwrites, cacheWrites_writeThrough. reflexivity.
Qed.

Lemma get_bitcoin_price_first_source_wins_witness :
  let env :=
    mkEnvironment (Some (mkRedisClient (fun _ => Reply None))) None
      (fun source i =>
         if (i <? 1)%nat then Rejected (HttpStatus 429)
         else Resolved (Quote (Q2Qc 65000))) in
  fst (get_bitcoin_price parseDecimal env)
  = mkPriceResponse 200 (Some (Num (Q2Qc 65000))) None None
  ∧ upstreamCalls (snd (get_bitcoin_price parseDecimal env)) = replicate 2 CoinGecko
  ∧ cacheWrites (snd (get_bitcoin_price parseDecimal env))
    = [("bitcoin_price"%string, 300%nat, Num (Q2Qc 65000))].
Proof.
  intros env.
  apply (get_bitcoin_price_first_source_wins parseDecimal env 1 (Q2Qc 65000)).
  - reflexivity.
  - lia.
  - intros i Hi. exists (HttpStatus 429). assert (i = 0%nat) as -> by lia. reflexivity.
  - reflexivity.
Defined.

(** X22.  The handler does not test the price it reads.  On a cache miss,
    when CoinGecko's first resolving attempt (among its three) is a body
    whose [bitcoin] object has no [usd], the handler answers 200 with no
    price and no warning: it asks no other source, does not fall back and
    writes nothing to the cache. *)
Theorem get_bitcoin_price_passes_missing_price
    (parseFloat : string → JsNumber) (env : Environment) (j : nat) :
  cachedPrice env = None →
  (j < 3)%nat →
  rejectedBetween (axiosGet env CoinGecko) 0 j →
  axiosGet env CoinGecko j = Resolved NoPrice →
  fst (get_bitcoin_price parseFloat env) = mkPriceResponse 200 None None None
  ∧ upstreamCalls (snd (get_bitcoin_price parseFloat env)) = replicate (S j) CoinGecko
  ∧ cacheWrites (snd (get_bitcoin_price parseFloat env)) = [].
Proof.
  intros Hmiss Hj Hrejected Hbody.
  destruct (fetchLoop_first_success CoinGecko (axiosGet env CoinGecko) 3 1000 0 3 j NoPrice)
    as (Hresult & Hcalls & Hwrites); try assumption; try lia.
  unfold get_bitcoin_price, trySource, fetchWithRetry. rewrite Hmiss.
  destruct (fetchLoop CoinGecko (axiosGet env CoinGecko) 3 1000 0 3) as [result events].
  cbn [fst snd] in Hresult, Hcalls, Hwrites. subst result. cbn [fst snd].
  split; [reflexivity|]. split; [|exact Hwrites].
  rewrite Hcalls. f_equal; lia.
Qed.

Lemma get_bitcoin_price_passes_missing_price_witness :
  let env :=
    mkEnvironment (Some (mkRedisClient (fun _ => Reply None))) (Some "key"%string)
      (fun source i =>
         if (i <? 1)%nat then Rejected NoResponse else Resolved NoPrice) in
  fst (get_bitcoin_price parseDecimal env) = mkPriceResponse 200 None None None
  ∧ upstreamCalls (snd (get_bitcoin_price parseDecimal env)) = replicate 2 CoinGecko
  ∧ cacheWrites (snd (get_bitcoin_price parseDecimal env)) = [].
Proof.
  intros env.
  apply (get_bitcoin_price_passes_missing_price parseDecimal env 1).
  - reflexivity.
  - lia.
  - intros i Hi. exists NoResponse. assert (i = 0%nat) as -> by lia. reflexivity.
  - reflexivity.
Defined.

(** X15.  One price request writes the cache at most once, and only the
    number a source has just delivered and the handler answers, under
    "bitcoin_price" for 300 seconds: a cached price that is served again and
    the fallback price are never written, and an answer with a warning goes
    with no write. *)
Theorem get_bitcoin_price_writes (parseFloat : string → JsNumber) (env : Environment) :
  let response := fst (get_bitcoin_price parseFloat env) in
  let writes := cacheWrites (snd (get_bitcoin_price parseFloat env)) in
  writes = []
  ∨ ∃ p, writes = [("bitcoin_price"%string, 300%nat, p)]
         ∧ price response = Some p
         ∧ warning response = None
         ∧ cachedPrice env = None
         ∧ is_Some (redisClient env).
Proof.
  unfold get_bitcoin_price.
  destruct (cachedPrice env) as [text|] eqn:Hcache; [left; reflexivity|].
  destruct (trySource_events env CoinGecko) as [_ H1].
  destruct (trySource_events env CoinMarketCap) as [_ H2].
  destruct (trySource_events env Binance) as [_ H3].
  destruct (trySource env CoinGecko) as [r1 events1].
  destruct (trySource env CoinMarketCap) as [r2 events2].
  destruct (trySource env Binance) as [r3 events3].
  cbn [fst snd] in H1, H2, H3.
  assert (Hwritten : ∀ (answered : option JsNumber) events more,
    match answered with
    | Some p =>
      cacheWrites events
      = match redisClient env with
        | Some _ => [("bitcoin_price"%string, 300%nat, p)]
        | None => []
        end
    | None => cacheWrites events = []
    end →
    cacheWrites more = [] →
    cacheWrites (more ++ events) = []
    ∨ ∃ q, cacheWrites (more ++ events) = [("bitcoin_price"%string, 300%nat, q)]
           ∧ answered = Some q ∧ @None string = None
           ∧ @None string = None ∧ is_Some (redisClient env)).
  { intros answered events more Hevents Hmore. rewrite cacheWrites_app, Hmore.
    destruct answered as [p|]; [|left; exact Hevents].
    rewrite Hevents.
    destruct (redisClient env) as [client|]; [right | left; reflexivity].
    exists p. repeat split. eauto. }
  destruct r1 as [p1|]; cbn [fst snd price warning].
  { exact (Hwritten p1 events1 [] H1 eq_refl). }
  destruct (truthy (CMC_API_KEY env)).
  - destruct r2 as [p2|]; cbn [fst snd price warning].
    { exact (Hwritten p2 events2 events1 H2 H1). }
    destruct r3 as [p3|]; cbn [fst snd price warning].
    + replace (events1 ++ events2 ++ events3) with ((events1 ++ events2) ++ events3)
        by (symmetry; apply app_assoc).
      apply (Hwritten p3 events3 (events1 ++ events2) H3).
      rewrite cacheWrites_app, H1, H2. reflexivity.
    + left. rewrite !cacheWrites_app, H1, H2, H3. reflexivity.
  - destruct r3 as [p3|]; cbn [fst snd price warning].
    + replace (events1 ++ [] ++ events3) with (events1 ++ events3) by reflexivity.
      exact (Hwritten p3 events3 events1 H3 H1).
    + left. rewrite !cacheWrites_app, H1, H3. reflexivity.
Qed.

(** ** The price history *)

Lemma historyRequests_iteration (error : AxiosError) (backoff i : nat)
    (events : list HistoryEvent) :
  historyRequests
    (HistoryRequest
       :: (if is429 error then [HistoryWait (backoff * (i + 1))] else []) ++ events)
  = S (historyRequests events).
Proof. destruct (is429 error); reflexivity. Qed.

Lemma historyRequests_app (xs ys : list HistoryEvent) :
  historyRequests (xs ++ ys) = (historyRequests xs + historyRequests ys)%nat.
Proof. unfold historyRequests. rewrite omap_app, length_app. reflexivity. Qed.

Lemma fetchHistoryLoop_first_success (answer : nat → HistoryResult)
    (retries backoff i remaining j status : nat) (data : HistoryBody) :
  (i + remaining = retries)%nat →
  (i ≤ j < retries)%nat →
  (∀ k, (i ≤ k < j)%nat → ∃ error, answer k = HistoryRejected error) →
  answer j = HistoryResolved status data →
  fst (fetchHistoryLoop answer retries backoff i remaining) = HistoryReturned data
  ∧ historyRequests (snd (fetchHistoryLoop answer retries backoff i remaining))
    = (S j - i)%nat.
Proof.
  revert i. induction remaining as [|remaining IH]; intros i Hsum Hj Hrejected Hdata;
    [lia|].
  cbn [fetchHistoryLoop].
  destruct (Nat.eq_dec i j) as [->|Hne].
  - rewrite Hdata. split; [reflexivity|]. cbn. lia.
  - destruct (Hrejected i) as [error Herror]; [lia|]. rewrite Herror.
    destruct (Nat.eqb_spec i (retries - 1)) as [Heq|_]; [lia|].
    destruct (IH (S i)) as (Hresult & Hcount); try assumption; try lia.
    { intros k Hk. apply Hrejected. lia. }
    destruct (fetchHistoryLoop answer retries backoff (S i) remaining) as [result events].
    cbn [fst snd] in *. split; [exact Hresult|].
    rewrite historyRequests_iteration, Hcount. lia.
Qed.

(** X17.  On a cache miss (no Redis client, a failing read, no entry, or an
    entry [JSON.parse] rejects), when the first resolving attempt among the
    three carries a well-formed series, the history handler of the later
    version answers that series with its dates, after exactly that many
    requests, whether or not the cache write then succeeds. *)
Theorem get_bitcoin_history_delivers
    (Json : Type) (JSON_parse : string → option Json)
    (isoDate : Z → option string) (isoDaysAgo : nat → string)
    (env : HistoryEnvironment) (j status : nat)
    (prices : list (Z * Qc)) (points : list PricePoint.t) :
  cachedHistory Json JSON_parse env = None →
  (j < 3)%nat →
  (∀ k, (k < j)%nat → ∃ error, historyGet env k = HistoryRejected error) →
  historyGet env j = HistoryResolved status (Series prices) →
  toPoints isoDate prices = Some points →
  fst (get_bitcoin_history Json JSON_parse isoDate isoDaysAgo env) = Prices points
  ∧ historyRequests (snd (get_bitcoin_history Json JSON_parse isoDate isoDaysAgo env))
    = S j.
Proof.
  intros Hmiss Hj Hrejected Hdata Hpoints.
  destruct (fetchHistoryLoop_first_success (historyGet env) 3 1000 0 3 j status (Series prices))
    as [Hresult Hcount]; try assumption; try lia.
  { intros k Hk. apply Hrejected. lia. }
  unfold get_bitcoin_history. rewrite Hmiss.
  destruct (fetchHistoryLoop (historyGet env) 3 1000 0 3) as [result events].
  cbn [fst snd] in Hresult, Hcount. subst result. rewrite Hpoints. cbn [fst snd].
  split; [reflexivity|].
  rewrite historyRequests_app, Hcount.
  destruct (historyCache env); cbn; lia.
Qed.

Lemma get_bitcoin_history_delivers_witness :
  fst (get_bitcoin_history string sampleParse sampleIsoDate sampleDaysAgo failingWrite)
  = Prices [PricePoint.mk "2025-11-01" (Q2Qc 110000);
            PricePoint.mk "2025-11-02" (Q2Qc 111500)]
  ∧ historyRequests
      (snd (get_bitcoin_history string sampleParse sampleIsoDate sampleDaysAgo failingWrite))
    = 1%nat.
Proof.
  apply (get_bitcoin_history_delivers string sampleParse sampleIsoDate sampleDaysAgo
           failingWrite 0 200 sampleSeries).
  - reflexivity.
  - lia.
  - intros k Hk. lia.
  - reflexivity.
  - reflexivity.
Defined.

(** X18.  In the history handler of [server.js] every Redis failure ends in
    the stand-in series: a failing cache read or an entry [JSON.parse]
    rejects gives it without any upstream request, and a failing cache write
    gives it in place of the series that was just fetched. *)
Theorem get_bitcoin_history_serverjs_redis_failures
    (Json : Type) (JSON_parse : string → option Json)
    (isoDate : Z → option string) (isoDaysAgo : nat → string)
    (env : HistoryEnvironment) (cache : HistoryCache) :
  historyCache env = Some cache →
  let answer := get_bitcoin_history_serverjs Json JSON_parse isoDate isoDaysAgo env in
  let synthetic := Prices (syntheticHistory isoDaysAgo env 0) in
  (getHistory cache = RedisFailure → answer = (synthetic, []))
  ∧ (∀ text, getHistory cache = Reply (Some text) → text ≠ EmptyString →
       JSON_parse text = None → answer = (synthetic, []))
  ∧ (∀ prices points,
       getHistory cache = Reply None → setExThrows cache = true →
       historyGet env 0%nat = HistoryResolved 200 (Series prices) →
       toPoints isoDate prices = Some points →
       answer = (synthetic, [HistoryRequest; HistorySetEx "bitcoin_history" 300 points])).
Proof.
  intros Hcache answer synthetic. unfold answer, get_bitcoin_history_serverjs.
  rewrite Hcache. split; [|split].
  - intros Hread. rewrite Hread. reflexivity.
  - intros text Hread Htext Hparse. apply notEmpty_true in Htext.
    rewrite Hread, Htext, Hparse. reflexivity.
  - intros prices points Hread Hwrite Hdata Hpoints.
    rewrite Hread. cbn [fetchLoop_serverjs]. rewrite Hdata.
    cbn [Nat.eqb]. rewrite Hpoints, Hwrite. reflexivity.
Qed.

Lemma get_bitcoin_history_serverjs_redis_failures_witness :
  get_bitcoin_history_serverjs string sampleParse sampleIsoDate sampleDaysAgo failingRead
  = (Prices (syntheticHistory sampleDaysAgo failingRead 0), [])
  ∧ get_bitcoin_history_serverjs string sampleParse sampleIsoDate sampleDaysAgo failingWrite
    = (Prices (syntheticHistory sampleDaysAgo failingWrite 0),
       [HistoryRequest;
        HistorySetEx "bitcoin_history" 300
          [PricePoint.mk "2025-11-01" (Q2Qc 110000);
           PricePoint.mk "2025-11-02" (Q2Qc 111500)]]).
Proof.
  split.
  - apply (proj1 (get_bitcoin_history_serverjs_redis_failures string sampleParse
                    sampleIsoDate sampleDaysAgo failingRead
                    (mkHistoryCache RedisFailure false) eq_refl)).
    reflexivity.
  - apply (proj2 (proj2 (get_bitcoin_history_serverjs_redis_failures string sampleParse
                    sampleIsoDate sampleDaysAgo failingWrite
                    (mkHistoryCache (Reply None) true) eq_refl)) sampleSeries);
      reflexivity.
Defined.

(** X19.  When the cache holds a history that [JSON.parse] accepts, both
    history handlers answer it as parsed and send no upstream request. *)
Theorem get_bitcoin_history_cache_hit
    (Json : Type) (JSON_parse : string → option Json)
    (isoDate : Z → option string) (isoDaysAgo : nat → string)
    (env : HistoryEnvironment) (json : Json) :
  cachedHistory Json JSON_parse env = Some json →
  get_bitcoin_history Json JSON_parse isoDate isoDaysAgo env = (Cached json, [])
  ∧ get_bitcoin_history_serverjs Json JSON_parse isoDate isoDaysAgo env = (Cached json, []).
Proof.
  intros Hhit. split.
  - unfold get_bitcoin_history. rewrite Hhit. reflexivity.
  - unfold get_bitcoin_history_serverjs. unfold cachedHistory in Hhit.
    destruct (historyCache env) as [cache|]; [|discriminate].
    destruct (getHistory cache) as [[text|]|]; try discriminate.
    destruct (notEmpty text); [|discriminate].
    rewrite Hhit. reflexivity.
Qed.

Lemma get_bitcoin_history_cache_hit_witness :
  let env :=
    mkHistoryEnvironment (Some (mkHistoryCache (Reply (Some "[]"%string)) false))
      (fun _ => HistoryRejected NoResponse) (fun _ => 0) in
  get_bitcoin_history string sampleParse sampleIsoDate sampleDaysAgo env
  = (Cached "[]"%string, [])
  ∧ get_bitcoin_history_serverjs string sampleParse sampleIsoDate sampleDaysAgo env
    = (Cached "[]"%string, []).
Proof.
  intros env.
  apply (get_bitcoin_history_cache_hit string sampleParse sampleIsoDate sampleDaysAgo env).
  reflexivity.
Defined.

Lemma fetchLoop_serverjs_paced (answer : nat → HistoryResult) (retries i remaining : nat) :
  (i + remaining = retries)%nat →
  let events := snd (fetchLoop_serverjs answer retries i remaining) in
  (historyRequests events ≤ remaining)%nat
  ∧ ((0 < remaining)%nat → (0 < historyRequests events)%nat)
  ∧ historyWaits events = replicate (historyRequests events - 1) 1000%nat.
Proof.
  revert i. induction remaining as [|remaining IH]; intros i Hsum.
  - cbn. split; [lia|]. split; [lia | reflexivity].
  - cbn [fetchLoop_serverjs].
    assert (Hfailed :
      let events :=
        snd (if (i =? retries - 1)%nat then (HistoryThrew, [HistoryRequest])
             else
               let '(result, events) := fetchLoop_serverjs answer retries (S i) remaining in
               (result, HistoryRequest :: HistoryWait 1000 :: events)) in
      (historyRequests events ≤ S remaining)%nat
      ∧ ((0 < S remaining)%nat → (0 < historyRequests events)%nat)
      ∧ historyWaits events = replicate (historyRequests events - 1) 1000%nat).
    { destruct (Nat.eqb_spec i (retries - 1)) as [Heq|Hne].
      - cbn. split; [lia|]. split; [lia | reflexivity].
      - destruct (IH (S i)) as (Hle & Hpos & Hwaits); [lia|].
        destruct (fetchLoop_serverjs answer retries (S i) remaining) as [result events].
        cbn [snd] in *.
        change (historyRequests (HistoryRequest :: HistoryWait 1000 :: events))
          with (S (historyRequests events)).
        change (historyWaits (HistoryRequest :: HistoryWait 1000 :: events))
          with (1000%nat :: historyWaits events).
        assert (0 < historyRequests events)%nat by (apply Hpos; lia).
        split; [lia|]. split; [lia|].
        rewrite Hwaits.
        replace (S (historyRequests events) - 1)%nat
          with (S (historyRequests events - 1)) by lia.
        reflexivity. }
    destruct (answer i) as [status data|error]; [|exact Hfailed].
    destruct (status =? 200)%nat; [|exact Hfailed].
    cbn. split; [lia|]. split; [lia | reflexivity].
Qed.

(** X20.  The retry loop of [server.js] sends at most [retries] requests and
    pauses one second between any two of them, never after the last: the
    pauses are one fewer than the requests. *)
Theorem fetchLoop_serverjs_pacing (answer : nat → HistoryResult) (retries : nat) :
  let events := snd (fetchLoop_serverjs answer retries 0 retries) in
  (historyRequests events ≤ retries)%nat
  ∧ historyWaits events = replicate (historyRequests events - 1) 1000%nat.
Proof.
  intros events.
  destruct (fetchLoop_serverjs_paced answer retries 0 retries eq_refl) as (Hle & _ & Hwaits).
  split; assumption.
Qed.

(** ** Investment analysis *)



(** X21.  After any sequence of the five operations from a new account, and
    whatever the price source answers, the analysis is the one of an empty
    portfolio: it answers (no error) with [totalInvested], [currentValue]
    and [roi] all 0, and never recommends diversifying; no request had an
    investment stored. *)
Theorem get_investment_analysis_after_run
    (env : Environment) (today : string) (ops : list Op) :
  let user := run today ops newUser in
  ∃ advice,
    fst (get_investment_analysis env user) = Analysed (mkAnalysis 0 0 0 advice)
    ∧ ¬ In Diversify advice.
Proof.
  intros user.
  assert (Hempty : investmentHistory user = [])
    by (unfold user; rewrite run_keeps_investmentHistory; reflexivity).
  unfold get_investment_analysis.
  destruct (analysisPrice env) as [currentPrice events]. cbn [fst].
  unfold analyze. rewrite Hempty.
  eexists. split; [reflexivity|].
  replace (js_gt 0 (Q2Qc 0.1)) with false by (vm_compute; reflexivity).
  cbn [app].
  destruct (js_gt _ _); cbn [In]; [intros [H|[]]; discriminate H | tauto].
Qed.
